(** * creamsensation/parser: request-data binding

    A shallow embedding of [parser.go] (the [Query] API) and of the earlier
    revision of the same file that exposes [QueryParam], followed by the
    properties of the binding, body and multipart accessors.

    Go values that the code only passes around are kept abstract enough to
    run: a destination is a [target], the request is a record of what the
    transport supplies, and the parts of the request that calls change (the
    body stream, the parsed multipart form) live in a [State] threaded by a
    small monad that also records every call made to the transport. *)

From Stdlib Require Import ZArith String Ascii List Lia.
From Stdlib.Strings Require Import Byte.
From stdpp Require Import base option list strings gmap.

Local Open Scope Z_scope.
Local Open Scope string_scope.

(** ** Go run time: errors, kinds, values, destinations *)

Module Go.

(** Error values.  The sentinels of the package ([ErrorQueryMissing], ...)
    are declared next to [parser.go]; [util_ErrorPointerTarget] is the
    sentinel of the conversion package, [io_EOF] the one of [io].
    [errors_New] and [errors_Join] build fresh errors; [Foreign] stands for
    whatever a collaborator (transport, decoder, converter) reports. *)
Inductive error : Type :=
  | ErrorQueryMissing
  | ErrorQueryParamMissing
  | ErrorPathValueMissing
  | ErrorPointerTarget
  | ErrorInvalidMultipart
  | ErrorOpenFile
  | ErrorReadData
  | util_ErrorPointerTarget
  | io_EOF
  | errors_New (text : string)
  | errors_Join (e1 e2 : error)
  | Foreign (what : string).

#[global] Instance error_eq_dec : EqDecision error.
Proof. solve_decision. Defined.

(** [reflect.Kind], as far as the binder distinguishes kinds. *)
Inductive Kind : Type := KBool | KInt | KString | KSlice | KStruct | KPtr.

#[global] Instance Kind_eq_dec : EqDecision Kind.
Proof. solve_decision. Defined.

(** [reflect.StructField]: the tag is the key/value list of the field's
    annotation; a field is exported when its [PkgPath] is empty. *)
Record StructField : Type := {
  Name : string;
  Tag : gmap string string;
  Exported : bool
}.

(** [StructTag.Get]: the empty string when the key is not in the tag. *)
Definition Tag_Get (f : StructField) (key : string) : string :=
  default "" (Tag f !! key).

#[warnings="-register-all"]
Inductive value : Type :=
  | VBool (b : bool)
  | VInt (n : Z)
  | VString (s : string)
  | VSlice (elem : Kind) (xs : list value)
  | VStruct (fields : list (StructField * value)).

Definition Kind_of (v : value) : Kind :=
  match v with
  | VBool _ => KBool
  | VInt _ => KInt
  | VString _ => KString
  | VSlice _ _ => KSlice
  | VStruct _ => KStruct
  end.

(** A destination of type [any]: the nil interface, a value passed by
    value, or a (non-nil) pointer, given by what it points to. *)
Inductive target : Type :=
  | Nil
  | Plain (v : value)
  | Pointer (v : value).

(** [reflect.TypeOf(target).Kind()]: a method call on the nil [Type] that
    [TypeOf] gives for the nil interface panics. *)
Definition TypeOf_Kind (t : target) : option Kind :=
  match t with
  | Nil => None
  | Plain v => Some (Kind_of v)
  | Pointer _ => Some KPtr
  end.

(** A call either returns or panics. *)
Inductive res (A : Type) : Type :=
  | Ret (a : A)
  | Panic.
Arguments Ret {A} a.
Arguments Panic {A}.

(** What a collaborator does to the destination it was handed: [None]
    leaves it alone, [Some v] stores [v] through the pointer.  Only a
    pointer can be written through. *)
Definition write : Type := option value.

Definition store (t : target) (w : write) : target :=
  match t, w with
  | Pointer _, Some v => Pointer v
  | _, _ => t
  end.

(** An [io.Reader]: the bytes still to come, then end of stream or the
    error that ends it. *)
Record stream : Type := {
  pending : list byte;
  fault : option error
}.

Definition drained (s : stream) : stream :=
  {| pending := []; fault := fault s |}.

(** [io.ReadAll]: everything pending, the error if the stream ends in one
    (end of stream is not an error), and the stream left behind. *)
Definition io_ReadAll (s : stream) : (list byte * option error) * stream :=
  ((pending s, fault s), drained s).

(** [multipart.FileHeader]: the file name and what [Open] gives. *)
Record FileHeader : Type := {
  Filename : string;
  Open : error + stream
}.

(** [form.Multipart] *)
Record Multipart : Type := {
  Key : string;
  PartName : string;
  Type_ : string;
  Suffix : string;
  Data : list byte
}.

(** [form.Multipart{}] *)
Definition Multipart_zero : Multipart :=
  {| Key := ""; PartName := ""; Type_ := ""; Suffix := ""; Data := [] |}.

(** [int64] arithmetic: the value a 64-bit signed register holds. *)
Definition int64 (z : Z) : Z := (z + 2 ^ 63) mod 2 ^ 64 - 2 ^ 63.

Definition is_int64 (z : Z) : Prop := - 2 ^ 63 <= z < 2 ^ 63.

(** [x << k] on [int64] *)
Definition shl64 (x k : Z) : Z := int64 (Z.shiftl x k).

(** [string(bytes)] *)
Definition string_of_bytes (b : list byte) : string := string_of_list_byte b.

End Go.
Export Go.

(** ** The request and the effects of a call *)

Module Http.

(** [multipart.Form.File], listed in the order in which a [range] over
    the map visits it.  Any order of the entries is a possible one, and Go
    picks the order anew at every [range]: a statement about one call holds
    for whatever list it is given, and a statement that relates two calls
    takes the two orders as two lists that are permutations of each other.
    The names of a map are distinct; where that matters it is a
    hypothesis. *)
Definition FormFiles : Type := list (string * list FileHeader).

(** What the transport supplies and never changes during a call:
    [r.URL.Query()], [r.PathValue], [util.IsRequestMultipart(r)] and the
    multipart decoder: what decoding with a given memory limit yields from
    the body as the call finds it ([None] is the nil body), and what the
    decoder leaves of the stream it has read from. *)
Record Request : Type := {
  URL_Query : gmap string (list string);
  PathValues : gmap string string;
  IsRequestMultipart : bool;
  ReadForm : Z -> option stream -> error + FormFiles;
  AfterReadForm : Z -> stream -> stream
}.

(** Calls made to the transport, in the order they are made. *)
Inductive event : Type :=
  | EvQuery
  | EvPathValue (key : string)
  | EvParseMultipartForm (maxMemory : Z)
  | EvReadBody.

(** What calls change: [r.Body] ([None] is the nil body), [r.MultipartForm]
    ([None] until the form is parsed) and the calls made so far. *)
Record State : Type := {
  Body : option stream;
  MultipartForm : option FormFiles;
  trace : list event
}.

Definition M (A : Type) : Type := State -> res A * State.

Definition ret {A} (a : A) : M A := fun st => (Ret a, st).

Definition bind {A B} (c : M A) (k : A -> M B) : M B :=
  fun st =>
    match c st with
    | (Ret a, st') => k a st'
    | (Panic, st') => (Panic, st')
    end.

Definition panic {A} : M A := fun st => (Panic, st).

Definition lift {A} (r : res A) : M A := fun st => (r, st).

(** The state once one more call to the transport is on record. *)
Definition logged (ev : event) (st : State) : State :=
  {| Body := Body st; MultipartForm := MultipartForm st;
     trace := trace st ++ [ev] |}.

Definition emit (ev : event) : M unit := fun st => (Ret tt, logged ev st).

Definition get_Body : M (option stream) := fun st => (Ret (Body st), st).

Definition set_Body (b : stream) : M unit :=
  fun st =>
    (Ret tt, {| Body := Some b; MultipartForm := MultipartForm st;
                trace := trace st |}).

(** The body once a reader has consumed part of it; the nil body stays
    nil. *)
Definition consume_Body (after : stream -> stream) : M unit :=
  fun st =>
    (Ret tt, {| Body := after <$> Body st; MultipartForm := MultipartForm st;
                trace := trace st |}).

Definition get_MultipartForm : M (option FormFiles) :=
  fun st => (Ret (MultipartForm st), st).

Definition set_MultipartForm (f : FormFiles) : M unit :=
  fun st =>
    (Ret tt, {| Body := Body st; MultipartForm := Some f;
                trace := trace st |}).

Declare Scope go_scope.
Delimit Scope go_scope with go.
Notation "x <- c ;; k" := (bind c (fun x => k))
  (at level 100, c at next level, right associativity) : go_scope.
Notation "c ;; k" := (bind c (fun _ => k))
  (at level 100, right associativity) : go_scope.

Local Open Scope go_scope.

(** [r.URL.Query()] *)
Definition Query_of (r : Request) : M (gmap string (list string)) :=
  emit EvQuery ;; ret (URL_Query r).

(** [Values.Has] and [Values.Get] of [net/url] *)
Definition Values_Has (q : gmap string (list string)) (key : string) : bool :=
  bool_decide (is_Some (q !! key)).

Definition Values_Get (q : gmap string (list string)) (key : string) : string :=
  match q !! key with
  | Some (x :: _) => x
  | _ => ""
  end.

(** [r.PathValue(key)]: the empty string when the route has no such
    wildcard. *)
Definition PathValue_of (r : Request) (key : string) : M string :=
  emit (EvPathValue key) ;; ret (default "" (PathValues r !! key)).

(** [r.ParseMultipartForm(maxMemory)]: a form parsed earlier is kept and
    the body is left alone; otherwise the decoder reads the body and, on
    success, the form is stored in [r.MultipartForm]. *)
Definition ParseMultipartForm (r : Request) (maxMemory : Z) : M (option error) :=
  emit (EvParseMultipartForm maxMemory) ;;
  parsed <- get_MultipartForm ;;
  match parsed with
  | Some _ => ret None
  | None =>
      body <- get_Body ;;
      consume_Body (AfterReadForm r maxMemory) ;;
      match ReadForm r maxMemory body with
      | inl e => ret (Some e)
      | inr f => set_MultipartForm f ;; ret None
      end
  end.

(** [io.ReadAll(r.Body)] on a body that is not nil *)
Definition ReadAll_Body (b : stream) : M (list byte * option error) :=
  emit EvReadBody ;;
  let '(out, b') := io_ReadAll b in
  set_Body b' ;; ret out.

(** [s[i]]: indexing out of range panics. *)
Definition index {A} (s : list A) (i : nat) : M A :=
  match s !! i with
  | Some x => ret x
  | None => panic
  end.

End Http.
Export Http.

(** ** Collaborators

    The conversion package ([util]), the content sniffer of [net/http] and
    the decoders of [encoding/json] and [encoding/xml] are not part of the
    package; the development is parametric in them.  A converter or decoder
    is handed the destination and answers with an error (or none) and what
    it stored; it may also panic.  The one thing relied upon is how
    [json.Decoder.Decode] treats a stream that ends before any byte: it
    reports [io.EOF] and has not looked at the destination yet. *)

Class Collaborators : Type := {
  ConvertValue : string -> target -> res (option error * write);
  ConvertSlice : list string -> target -> res (option error * write);
  SetValueToReflected : Kind -> value -> string -> res value;
  GetFilenameSuffix : string -> string;
  DetectContentType : list byte -> string;
  json_Unmarshal : list byte -> target -> res (option error * write);
  json_Decode : stream -> target -> res (option error * write) * stream;
  xml_Unmarshal : list byte -> target -> res (option error * write);
  xml_Decode : stream -> target -> res (option error * write) * stream;
  json_Decode_EOF : forall t,
    json_Decode {| pending := []; fault := None |} t
    = (Ret (Some io_EOF, None), {| pending := []; fault := None |})
}.

(** ** parser.go *)

Module Parser.
Section Code.
Context `{Collaborators}.
Local Open Scope go_scope.

Record Parser : Type := New {
  r : Request;
  bytes : option (list byte);
  limit : Z
}.

(** [len(p.bytes)]: zero for the nil slice as for the empty one. *)
Definition len_bytes (p : Parser) : nat :=
  match bytes p with
  | None => 0%nat
  | Some b => length b
  end.

Definition payload (p : Parser) : list byte := default [] (bytes p).

(** Running a converter or decoder on a destination. *)
Definition call (c : res (option error * write)) (t : target)
  : M (option error * target) :=
  match c with
  | Ret (err, w) => ret (err, store t w)
  | Panic => panic
  end.

Definition Query (p : Parser) (key : string) (t : target)
  : M (option error * target) :=
  q <- Query_of (r p) ;;
  match q !! key with
  | None => ret (Some ErrorQueryMissing, t)
  | Some qv =>
      let n := length qv in
      if (n =? 1)%nat then
        qv0 <- index qv 0 ;; call (ConvertValue qv0 t) t
      else if (1 <? n)%nat then
        call (ConvertSlice qv t) t
      else ret (None, t)
  end.

Definition PathValue (p : Parser) (key : string) (t : target)
  : M (option error * target) :=
  pathValue <- PathValue_of (r p) key ;;
  if (String.length pathValue =? 0)%nat then ret (Some ErrorPathValueMissing, t)
  else call (ConvertValue pathValue t) t.

Definition processQuery (p : Parser) (fieldInfo : StructField) (fieldValue : target)
  : M (option error * target) :=
  let queryKey := Tag_Get fieldInfo "query" in
  qm <- Query_of (r p) ;;
  match qm !! queryKey with
  | None => ret (None, fieldValue)
  | Some q =>
      if (length q =? 0)%nat then ret (None, fieldValue)
      else if (length q =? 1)%nat then
        q0 <- index q 0 ;; call (ConvertValue q0 fieldValue) fieldValue
      else call (ConvertSlice q fieldValue) fieldValue
  end.

Definition processPathValue (p : Parser) (fieldInfo : StructField) (fieldValue : target)
  : M (option error * target) :=
  let pathKey := Tag_Get fieldInfo "path" in
  pathValue <- PathValue_of (r p) pathKey ;;
  if String.eqb pathValue "" then ret (None, fieldValue)
  else call (ConvertValue pathValue fieldValue) fieldValue.

(** The struct after a call that was handed the address of field [i]. *)
Definition through (i : nat) (fieldInfo : StructField) (fieldValue : target)
    (fs : list (StructField * value)) : list (StructField * value) :=
  match fieldValue with
  | Pointer v => <[i := (fieldInfo, v)]> fs
  | _ => fs
  end.

(** The body of the loop of [Url] for the indices [idx], on the struct
    whose fields are [fs].  [v.Field(i).Addr().Interface()] panics on a
    field that is not exported. *)
Fixpoint Url_fields (p : Parser) (idx : list nat) (fs : list (StructField * value))
  : M (option error * list (StructField * value)) :=
  match idx with
  | [] => ret (None, fs)
  | i :: rest =>
      f <- index fs i ;;
      let fieldInfo := f.1 in
      if negb (Exported fieldInfo) then panic
      else
        let fieldValue := Pointer f.2 in
        q <- processQuery p fieldInfo fieldValue ;;
        let fs := through i fieldInfo q.2 fs in
        match q.1 with
        | Some err => ret (Some err, fs)
        | None =>
            pv <- processPathValue p fieldInfo q.2 ;;
            let fs := through i fieldInfo pv.2 fs in
            match pv.1 with
            | Some err => ret (Some err, fs)
            | None => Url_fields p rest fs
            end
        end
  end.

(** [t.Elem().NumField()] panics unless the pointer is to a struct. *)
Definition Url (p : Parser) (t : target) : M (option error * target) :=
  match TypeOf_Kind t with
  | None => panic
  | Some k =>
      if bool_decide (k <> KPtr) then ret (Some util_ErrorPointerTarget, t)
      else
        match t with
        | Pointer (VStruct fs) =>
            out <- Url_fields p (seq 0 (length fs)) fs ;;
            ret (out.1, Pointer (VStruct out.2))
        | _ => panic
        end
  end.

Definition Text (p : Parser) : M (string * option error) :=
  if (0 <? len_bytes p)%nat then ret (string_of_bytes (payload p), None)
  else
    body <- get_Body ;;
    match body with
    | None => ret ("", None)
    | Some b =>
        out <- ReadAll_Body b ;;
        ret (string_of_bytes out.1, out.2)
    end.

(** Decoding from the body: the decoder reads the stream and leaves it
    where it stopped. *)
Definition Decode_Body
    (dec : stream -> target -> res (option error * write) * stream)
    (b : stream) (t : target) : M (option error * target) :=
  emit EvReadBody ;;
  let '(out, b') := dec b t in
  set_Body b' ;; call out t.

Definition Json (p : Parser) (t : target) : M (option error * target) :=
  if (0 <? len_bytes p)%nat then call (json_Unmarshal (payload p) t) t
  else
    body <- get_Body ;;
    match body with
    | None => ret (None, t)
    | Some b =>
        out <- Decode_Body json_Decode b t ;;
        if bool_decide (out.1 = Some io_EOF) then ret (None, out.2)
        else ret out
    end.

Definition Xml (p : Parser) (t : target) : M (option error * target) :=
  if (0 <? len_bytes p)%nat then call (xml_Unmarshal (payload p) t) t
  else
    body <- get_Body ;;
    match body with
    | None => ret (None, t)
    | Some b => Decode_Body xml_Decode b t
    end.

Definition parseMultipartForm (p : Parser) : M (option error) :=
  if negb (IsRequestMultipart (r p)) then ret (Some ErrorInvalidMultipart)
  else ParseMultipartForm (r p) (shl64 (limit p) 20).

(** The inner loop of [createMultiparts]: the files of one form field. *)
Fixpoint read_files (name : string) (files : list FileHeader) (result : list Multipart)
  : list Multipart * option error :=
  match files with
  | [] => (result, None)
  | file :: rest =>
      match Open file with
      | inl err => (result, Some (errors_Join ErrorOpenFile err))
      | inr f =>
          let '(data, err) := (io_ReadAll f).1 in
          match err with
          | Some err => (result, Some (errors_Join ErrorReadData err))
          | None =>
              read_files name rest
                (result ++ [ {| Key := name;
                                PartName := Filename file;
                                Type_ := DetectContentType data;
                                Suffix := GetFilenameSuffix (Filename file);
                                Data := data |} ])
          end
      end
  end.

(** The outer loop: the fields of the form in the order of the [range]. *)
Fixpoint range_File (fn : string) (entries : FormFiles) (result : list Multipart)
  : list Multipart * option error :=
  match entries with
  | [] => (result, None)
  | (name, files) :: rest =>
      if (0 <? String.length fn)%nat && negb (String.eqb name fn)
      then range_File fn rest result
      else
        match read_files name files result with
        | (result, Some err) => (result, Some err)
        | (result, None) => range_File fn rest result
        end
  end.

(** [p.r.MultipartForm.File] on a nil [MultipartForm] panics. *)
Definition createMultiparts (p : Parser) (filename : list string)
  : M (list Multipart * option error) :=
  let fn := match filename with
            | [] => ""
            | filename0 :: _ => filename0
            end in
  form <- get_MultipartForm ;;
  match form with
  | None => panic
  | Some entries => ret (range_File fn entries [])
  end.

Definition File (p : Parser) (filename : string) : M (Multipart * option error) :=
  if (0 <? len_bytes p)%nat then ret (Multipart_zero, None)
  else
    err <- parseMultipartForm p ;;
    match err with
    | Some err => ret (Multipart_zero, Some err)
    | None =>
        out <- createMultiparts p [filename] ;;
        match out.2 with
        | Some err => ret (Multipart_zero, Some err)
        | None =>
            match out.1 with
            | [] => ret (Multipart_zero, None)
            | first :: _ => ret (first, None)
            end
        end
    end.

Definition Files (p : Parser) (filesname : list string)
  : M (list Multipart * option error) :=
  if (0 <? len_bytes p)%nat then ret ([], None)
  else
    err <- parseMultipartForm p ;;
    match err with
    | Some err => ret ([], Some err)
    | None =>
        out <- createMultiparts p filesname ;;
        match out.2 with
        | Some err => ret ([], Some err)
        | None => ret (out.1, None)
        end
    end.

End Code.
End Parser.

(** ** The earlier revision: [QueryParam]

    The revision of the file that exposes [QueryParam] checks the
    destination itself and stores through [util.SetValueToReflected], whose
    result is not looked at.  [Text], [Json], [Xml], [File], [Files] and
    their helpers are the same text as in [parser.go]. *)

Module Earlier.
Section Code.
Context `{Collaborators}.
Local Open Scope go_scope.
Import Parser.

(** [util.SetValueToReflected(kind, v.Elem(), s)] on the destination *)
Definition set_reflected (t : target) (s : string) : M target :=
  match t with
  | Pointer v =>
      v' <- lift (SetValueToReflected (Kind_of v) v s) ;; ret (Pointer v')
  | _ => panic
  end.

Definition QueryParam (p : Parser) (key : string) (t : target)
  : M (option error * target) :=
  match TypeOf_Kind t with
  | None => panic
  | Some k =>
      if bool_decide (k <> KPtr) then ret (Some ErrorPointerTarget, t)
      else
        q <- Query_of (r p) ;;
        if negb (Values_Has q key) then ret (Some ErrorQueryParamMissing, t)
        else
          q <- Query_of (r p) ;;
          let stringValue := Values_Get q key in
          t' <- set_reflected t stringValue ;;
          ret (None, t')
  end.

Definition PathValue (p : Parser) (key : string) (t : target)
  : M (option error * target) :=
  match TypeOf_Kind t with
  | None => panic
  | Some k =>
      if bool_decide (k <> KPtr) then ret (Some ErrorPointerTarget, t)
      else
        pathValue <- PathValue_of (r p) key ;;
        if (String.length pathValue =? 0)%nat
        then ret (Some ErrorPathValueMissing, t)
        else
          t' <- set_reflected t pathValue ;;
          ret (None, t')
  end.

(** [util.SetValueToReflected(kind, v.Elem().Field(i), s)] *)
Definition set_field (i : nat) (s : string) (fs : list (StructField * value))
  : M (list (StructField * value)) :=
  f <- index fs i ;;
  v' <- lift (SetValueToReflected (Kind_of f.2) f.2 s) ;;
  ret (<[i := (f.1, v')]> fs).

Fixpoint Url_fields (p : Parser) (idx : list nat) (fs : list (StructField * value))
  : M (list (StructField * value)) :=
  match idx with
  | [] => ret fs
  | i :: rest =>
      f <- index fs i ;;
      let queryKey := Tag_Get f.1 "query" in
      fs <- (if (0 <? String.length queryKey)%nat then
               q <- Query_of (r p) ;;
               if Values_Has q queryKey then
                 q <- Query_of (r p) ;;
                 let queryParam := Values_Get q queryKey in
                 set_field i queryParam fs
               else ret fs
             else ret fs) ;;
      let pathKey := Tag_Get f.1 "path" in
      pathValue <- PathValue_of (r p) pathKey ;;
      fs <- (if (0 <? String.length pathKey)%nat
                && (0 <? String.length pathValue)%nat
             then set_field i pathValue fs
             else ret fs) ;;
      Url_fields p rest fs
  end.

Definition Url (p : Parser) (t : target) : M (option error * target) :=
  match TypeOf_Kind t with
  | None => panic
  | Some k =>
      if bool_decide (k <> KPtr)
      then ret (Some (errors_New "target must be a pointer"), t)
      else
        match t with
        | Pointer (VStruct fs) =>
            fs' <- Url_fields p (seq 0 (length fs)) fs ;;
            ret (None, Pointer (VStruct fs'))
        | _ => panic
        end
  end.

End Code.
End Earlier.

(** ** The panicking entry points

    Each [MustX] calls [X] and panics with the error when there is one.
    [panic(err)] is an outcome of its own, carrying the error as the panic
    value; what the destination holds at that point is kept.  A panic of
    the run time inside [X] stays the [Panic] of the monad. *)

Module Must.

Inductive must (A : Type) : Type :=
  | Done (a : A)
  | PanicWith (err : error).
Arguments Done {A} a.
Arguments PanicWith {A} err.

Section Code.
Context `{Collaborators}.
Local Open Scope go_scope.
Import Parser.

Definition MustQuery (p : Parser) (key : string) (t : target)
  : M (must unit * target) :=
  out <- Query p key t ;;
  match out.1 with
  | Some err => ret (PanicWith err, out.2)
  | None => ret (Done tt, out.2)
  end.

Definition MustPathValue (p : Parser) (key : string) (t : target)
  : M (must unit * target) :=
  out <- PathValue p key t ;;
  match out.1 with
  | Some err => ret (PanicWith err, out.2)
  | None => ret (Done tt, out.2)
  end.

Definition MustUrl (p : Parser) (t : target) : M (must unit * target) :=
  out <- Url p t ;;
  match out.1 with
  | Some err => ret (PanicWith err, out.2)
  | None => ret (Done tt, out.2)
  end.

Definition MustText (p : Parser) : M (must string) :=
  out <- Text p ;;
  match out.2 with
  | Some err => ret (PanicWith err)
  | None => ret (Done out.1)
  end.

Definition MustJson (p : Parser) (t : target) : M (must unit * target) :=
  out <- Json p t ;;
  match out.1 with
  | Some err => ret (PanicWith err, out.2)
  | None => ret (Done tt, out.2)
  end.

Definition MustXml (p : Parser) (t : target) : M (must unit * target) :=
  out <- Xml p t ;;
  match out.1 with
  | Some err => ret (PanicWith err, out.2)
  | None => ret (Done tt, out.2)
  end.

Definition MustFile (p : Parser) (filename : string) : M (must Multipart) :=
  out <- File p filename ;;
  match out.2 with
  | Some err => ret (PanicWith err)
  | None => ret (Done out.1)
  end.

Definition MustFiles (p : Parser) (filesnames : list string)
  : M (must (list Multipart)) :=
  out <- Files p filesnames ;;
  match out.2 with
  | Some err => ret (PanicWith err)
  | None => ret (Done out.1)
  end.

End Code.
End Must.

(** ** A reference collaborator

    One concrete converter and decoder, to run the code on requests:
    base-10 integers, [true]/[false], strings taken as they are, slices
    converted element by element in the order given.  A failed conversion
    stores nothing.  The theorems below hold for every collaborator; this
    one shows the class is inhabited and evaluates the examples. *)

Module Reference.

Definition digit (c : ascii) : option Z :=
  let n := nat_of_ascii c in
  if (48 <=? n)%nat && (n <=? 57)%nat then Some (Z.of_nat (n - 48)) else None.

Fixpoint digits (s : string) (acc : Z) : option Z :=
  match s with
  | EmptyString => Some acc
  | String c s' =>
      match digit c with
      | Some d => digits s' (10 * acc + d)
      | None => None
      end
  end.

Definition Atoi (s : string) : option Z :=
  match s with
  | EmptyString => None
  | String c s' =>
      if Ascii.eqb c "-"%char then
        match s' with
        | EmptyString => None
        | _ => Z.opp <$> digits s' 0
        end
      else digits s 0
  end.

Definition parse (k : Kind) (s : string) : option value :=
  match k with
  | KInt => VInt <$> Atoi s
  | KString => Some (VString s)
  | KBool =>
      if String.eqb s "true" then Some (VBool true)
      else if String.eqb s "false" then Some (VBool false)
      else None
  | _ => None
  end.

Fixpoint parse_all (k : Kind) (raw : list string) : option (list value) :=
  match raw with
  | [] => Some []
  | s :: rest =>
      match parse k s, parse_all k rest with
      | Some v, Some vs => Some (v :: vs)
      | _, _ => None
      end
  end.

Definition convert_value (s : string) (t : target) : res (option error * write) :=
  match t with
  | Nil => Panic
  | Plain _ => Ret (Some util_ErrorPointerTarget, None)
  | Pointer v =>
      match parse (Kind_of v) s with
      | Some v' => Ret (None, Some v')
      | None => Ret (Some (Foreign "convert: invalid literal"), None)
      end
  end.

Definition convert_slice (raw : list string) (t : target) : res (option error * write) :=
  match t with
  | Nil => Panic
  | Plain _ => Ret (Some util_ErrorPointerTarget, None)
  | Pointer (VSlice k _) =>
      match parse_all k raw with
      | Some vs => Ret (None, Some (VSlice k vs))
      | None => Ret (Some (Foreign "convert: invalid literal"), None)
      end
  | Pointer _ => Ret (Some (Foreign "convert: not a slice"), None)
  end.

Definition set_value (k : Kind) (v : value) (s : string) : res value :=
  Ret (default v (parse k s)).

Fixpoint after_last_dot (s : string) (found : option string) : option string :=
  match s with
  | EmptyString => found
  | String c s' =>
      if Ascii.eqb c "."%char then after_last_dot s' (Some s')
      else after_last_dot s' found
  end.

Definition filename_suffix (name : string) : string :=
  default "" (after_last_dot name None).

(** The last two rules of the content sniffer of [net/http]: among the
    first 512 bytes, after leading white space, a control byte that text
    does not use makes the data [application/octet-stream], and data
    without one is [text/plain].  The table of signatures the sniffer tries
    before these rules (HTML, images, archives, ...) is left out. *)
Definition is_space (b : byte) : bool :=
  let n := Byte.to_nat b in
  (n =? 9)%nat || (n =? 10)%nat || (n =? 12)%nat || (n =? 13)%nat || (n =? 32)%nat.

Definition is_binary (b : byte) : bool :=
  let n := Byte.to_nat b in
  (n <=? 8)%nat || (n =? 11)%nat
  || ((14 <=? n)%nat && (n <=? 26)%nat)
  || ((28 <=? n)%nat && (n <=? 31)%nat).

Fixpoint skip_space (data : list byte) : list byte :=
  match data with
  | b :: rest => if is_space b then skip_space rest else data
  | [] => []
  end.

Definition detect (data : list byte) : string :=
  if existsb is_binary (skip_space (take 512 data))
  then "application/octet-stream"
  else "text/plain; charset=utf-8".

Definition unmarshal (data : list byte) (t : target) : res (option error * write) :=
  match t with
  | Pointer v =>
      match parse (Kind_of v) (string_of_bytes data) with
      | Some v' => Ret (None, Some v')
      | None => Ret (Some (Foreign "decode: invalid input"), None)
      end
  | _ => Ret (Some (Foreign "decode: destination is not a pointer"), None)
  end.

Definition decode (eof : error) (s : stream) (t : target)
  : res (option error * write) * stream :=
  match pending s with
  | [] => (Ret (Some (default eof (fault s)), None), s)
  | data => (unmarshal data t, drained s)
  end.

#[export] Instance reference : Collaborators := {|
  ConvertValue := convert_value;
  ConvertSlice := convert_slice;
  SetValueToReflected := set_value;
  GetFilenameSuffix := filename_suffix;
  DetectContentType := detect;
  json_Unmarshal := unmarshal;
  json_Decode := decode io_EOF;
  xml_Unmarshal := unmarshal;
  xml_Decode := decode io_EOF;
  json_Decode_EOF := fun _ => eq_refl
|}.

(** Requests and states to run the code on.  The decoder of a sample
    request reports a missing body when the body is nil and otherwise reads
    the stream to its end and yields [form]. *)
Definition request (q : list (string * list string)) (pv : list (string * string))
    (multipart : bool) (form : error + FormFiles) : Request :=
  {| URL_Query := list_to_map q;
     PathValues := list_to_map pv;
     IsRequestMultipart := multipart;
     ReadForm := fun _ body =>
       match body with
       | None => inl (Foreign "missing form body")
       | Some _ => form
       end;
     AfterReadForm := fun _ b => drained b |}.

Definition fresh (body : option stream) : State :=
  {| Body := body; MultipartForm := None; trace := [] |}.

Definition live (data : string) : option stream :=
  Some {| pending := list_byte_of_string data; fault := None |}.

Definition field (name : string) (tag : list (string * string)) (v : value)
  : StructField * value :=
  ({| Name := name; Tag := list_to_map tag; Exported := true |}, v).

Definition upload (name data : string) : FileHeader :=
  {| Filename := name;
     Open := inr {| pending := list_byte_of_string data; fault := None |} |}.

End Reference.

(** ** Sample requests *)

Module Sample.
Import Reference.

(** [?id=3&tags=a&tags=b] on a route whose wildcard [id] matched [7];
    [flag] stands for a key that is present without values. *)
Definition shop : Request :=
  request [("id", ["3"]); ("tags", ["a"; "b"]); ("flag", [])] [("id", "7")]
    false (inl (Foreign "request Content-Type isn't multipart/form-data")).

(** The same route with [?id=abc]. *)
Definition shop_bad_id : Request :=
  request [("id", ["abc"])] [("id", "7")]
    false (inl (Foreign "request Content-Type isn't multipart/form-data")).

(** A multipart request with one file in each of the fields [a] and [b]. *)
Definition uploads : FormFiles :=
  [("a", [upload "a.txt" "A"]); ("b", [upload "b.png" "B"])].

Definition upload_request : Request := request [] [] true (inr uploads).

(** [struct { ID int `query:"id" path:"id"` }] at its zero value, and
    with [ID] set to 7 *)
Definition ID : StructField :=
  (field "ID" [("query", "id"); ("path", "id")] (VInt 0)).1.

Definition item : list (StructField * value) := [(ID, VInt 0)].

Definition item7 : list (StructField * value) := [(ID, VInt 7)].

(** The state in which nothing was read or parsed yet, and the states the
    sample calls leave. *)
Definition start : State := fresh None.

Definition looked_up (evs : list event) : State :=
  {| Body := None; MultipartForm := None; trace := evs |}.

(** [struct { ID int `query:"id" path:"id"`; Name string `query:"name"` }] *)
Definition Name_info : StructField :=
  (field "Name" [("query", "name")] (VString "")).1.

Definition named_item : list (StructField * value) :=
  [(ID, VInt 0); (Name_info, VString "n/a")].

(** [struct { N int }], no tags, and the request [?=5] *)
Definition N_info : StructField := (field "N" [] (VInt 0)).1.

Definition untagged : list (StructField * value) := [(N_info, VInt 0)].

Definition empty_key : Request :=
  request [("", ["5"])] []
    false (inl (Foreign "request Content-Type isn't multipart/form-data")).

(** The part [Files] makes of the file in field [a]. *)
Definition part_a : Multipart :=
  {| Key := "a"; PartName := "a.txt"; Type_ := "text/plain; charset=utf-8";
     Suffix := "txt"; Data := list_byte_of_string "A" |}.

Definition part_b : Multipart :=
  {| Key := "b"; PartName := "b.png"; Type_ := "text/plain; charset=utf-8";
     Suffix := "png"; Data := list_byte_of_string "B" |}.

(** The state of a request whose body has arrived and was not read yet. *)
Definition posted : State := fresh (live "(the multipart body)").

(** The same form as [uploads], as a range may visit it as well. *)
Definition uploads_b_first : FormFiles :=
  [("b", [upload "b.png" "B"]); ("a", [upload "a.txt" "A"])].

(** The state of a request whose form was parsed by an earlier call,
    ranged in the other order. *)
Definition parsed_b_first : State :=
  {| Body := Some {| pending := []; fault := None |};
     MultipartForm := Some uploads_b_first;
     trace := [EvParseMultipartForm (shl64 1 20)] |}.

(** A multipart request with a single file, in field [a]. *)
Definition one_upload : FormFiles := [("a", [upload "a.txt" "A"])].

Definition one_upload_request : Request := request [] [] true (inr one_upload).

(** [struct { ID int `query:"id" path:"id"`; Age int `query:"age"` }] and
    the request [?id=3&age=abc] on the route whose [id] matched [7] *)
Definition Age_info : StructField := (field "Age" [("query", "age")] (VInt 0)).1.

Definition aged_item : list (StructField * value) :=
  [(ID, VInt 0); (Age_info, VInt 0)].

Definition shop_bad_age : Request :=
  request [("id", ["3"]); ("age", ["abc"])] [("id", "7")]
    false (inl (Foreign "request Content-Type isn't multipart/form-data")).

(** A form whose second file cannot be opened. *)
Definition missing_file : FileHeader :=
  {| Filename := "b.txt"; Open := inl (Foreign "open b.txt: no such file") |}.

Definition broken_uploads : FormFiles :=
  [("a", [upload "a.txt" "A"; missing_file])].

Definition broken_request : Request := request [] [] true (inr broken_uploads).

End Sample.

(** * Properties *)

Import Parser.
Local Open Scope go_scope.
Local Open Scope list_scope.

(** The errors meant by "the PointerTarget error": the sentinel of the
    conversion package and the one of the package itself. *)
Definition is_PointerTarget (e : error) : Prop :=
  e = util_ErrorPointerTarget \/ e = ErrorPointerTarget.

(** A call rejects the destination before any lookup when it returns a
    PointerTarget error and no call to the transport is on record. *)
Definition rejects_before_lookup (c : M (option error * target)) (st : State) : Prop :=
  exists e t st',
    c st = (Ret (Some e, t), st') /\ is_PointerTarget e /\ trace st' = trace st.

(** The value a field holds after a collaborator answered [w]. *)
Definition written (v : value) (w : write) : value := default v w.

(** The value of field [i] of the struct a destination points to. *)
Definition field_value (i : nat) (t : target) : option value :=
  match t with
  | Pointer (VStruct fs) => snd <$> fs !! i
  | _ => None
  end.

(** The conversion [Query] and [processQuery] pick for the values of a
    key that has at least one. *)
Definition convert_values `{Collaborators} (qv : list string) (t : target)
  : res (option error * write) :=
  match qv with
  | [x] => ConvertValue x t
  | _ => ConvertSlice qv t
  end.

(** [Text] called [n] times in a row, with what each call returned. *)
Fixpoint Text_times `{Collaborators} (p : Parser) (n : nat)
  : M (list (string * option error)) :=
  match n with
  | O => ret []
  | S n' =>
      out <- Text p ;;
      outs <- Text_times p n' ;;
      ret (out :: outs)
  end.

(** All the parts of a form whose files open and read without error, in
    the order of the form. *)
Definition part_of `{Collaborators} (name : string) (file : FileHeader) : option Multipart :=
  match Open file with
  | inr f =>
      match fault f with
      | None =>
          Some {| Key := name;
                  PartName := Filename file;
                  Type_ := DetectContentType (pending f);
                  Suffix := GetFilenameSuffix (Filename file);
                  Data := pending f |}
      | Some _ => None
      end
  | inl _ => None
  end.

Definition readable (entries : FormFiles) : Prop :=
  Forall (fun e => Forall (fun file => exists f, Open file = inr f /\ fault f = None) e.2)
         entries.

Definition parts_of `{Collaborators} (entries : FormFiles) : list Multipart :=
  concat (map (fun e => omap (part_of e.1) e.2) entries).

(** The filter of [createMultiparts]: the field [name] is read unless a
    name [fn] was asked for (one that is not the empty string) and differs
    from it.  The empty name selects every field. *)
Definition selects (fn name : string) : bool :=
  negb ((0 <? String.length fn)%nat && negb (String.eqb name fn)).

(** The form [createMultiparts] finds once [parseMultipartForm] returned
    without error: the one parsed earlier, else the one decoded now from
    the body. *)
Definition decoded (p : Parser) (st : State) : option FormFiles :=
  match MultipartForm st with
  | Some entries => Some entries
  | None =>
      match ReadForm (r p) (shl64 (limit p) 20) (Body st) with
      | inr entries => Some entries
      | inl _ => None
      end
  end.

(** The body after [parseMultipartForm] on a multipart request: untouched
    when the form was parsed earlier, else what the decoder left of it. *)
Definition Body_after_parse (p : Parser) (st : State) : option stream :=
  match MultipartForm st with
  | Some _ => Body st
  | None => AfterReadForm (r p) (shl64 (limit p) 20) <$> Body st
  end.

(** The state [parseMultipartForm] leaves when it found the form [entries]. *)
Definition parsed (p : Parser) (entries : FormFiles) (st : State) : State :=
  {| Body := Body_after_parse p st; MultipartForm := Some entries;
     trace := trace st ++ [EvParseMultipartForm (shl64 (limit p) 20)] |}.

(** What the two steps of [Url] do to a field that holds [v]: the error
    they return, if any, and the value the field holds afterwards. *)
Definition stored (v : value) (c : res (option error * write))
  : res (option error * value) :=
  match c with
  | Ret (err, w) => Ret (err, written v w)
  | Panic => Panic
  end.

(** A step handed the address of a field returns the pointer it was
    handed, the field holding what the conversion stored. *)
Definition at_field (c : res (option error * value)) : res (option error * target) :=
  match c with
  | Ret (err, v) => Ret (err, Pointer v)
  | Panic => Panic
  end.

Definition query_outcome `{Collaborators} (p : Parser) (info : StructField) (v : value)
  : res (option error * value) :=
  match URL_Query (r p) !! Tag_Get info "query" with
  | None | Some [] => Ret (None, v)
  | Some qv => stored v (convert_values qv (Pointer v))
  end.

Definition path_outcome `{Collaborators} (p : Parser) (info : StructField) (v : value)
  : res (option error * value) :=
  let pathValue := default "" (PathValues (r p) !! Tag_Get info "path") in
  if String.eqb pathValue "" then Ret (None, v)
  else stored v (ConvertValue pathValue (Pointer v)).

(** The calls to the transport that one turn of the loop of [Url] makes
    for a field, and those of a whole struct. *)
Definition field_lookups (f : StructField * value) : list event :=
  [EvQuery; EvPathValue (Tag_Get f.1 "path")].

Definition struct_lookups (fs : list (StructField * value)) : list event :=
  concat (map field_lookups fs).

(** What the two steps of the earlier [Url] do to a field that holds [v]:
    a step is taken only for a tag that is there and a source that has the
    key (a path value that is not empty), and it stores whatever
    [util.SetValueToReflected] makes of the string. *)
Definition Earlier_query_outcome `{Collaborators} (p : Parser) (info : StructField)
    (v : value) : res value :=
  let queryKey := Tag_Get info "query" in
  if (0 <? String.length queryKey)%nat && Values_Has (URL_Query (r p)) queryKey
  then SetValueToReflected (Kind_of v) v (Values_Get (URL_Query (r p)) queryKey)
  else Ret v.

Definition Earlier_path_outcome `{Collaborators} (p : Parser) (info : StructField)
    (v : value) : res value :=
  let pathKey := Tag_Get info "path" in
  let pathValue := default "" (PathValues (r p) !! pathKey) in
  if (0 <? String.length pathKey)%nat && (0 <? String.length pathValue)%nat
  then SetValueToReflected (Kind_of v) v pathValue
  else Ret v.

Section Facts.
Context `{Collaborators}.

Lemma store_written v w : store (Pointer v) w = Pointer (written v w).
Proof. by destruct w. Qed.

Lemma store_Plain v w : store (Plain v) w = Plain v.
Proof. by destruct w. Qed.

Lemma Query_absent p key t st :
  URL_Query (r p) !! key = None ->
  Query p key t st = (Ret (Some ErrorQueryMissing, t), logged EvQuery st).
Proof. intros Hq. unfold Query, Query_of, bind, emit, ret. simpl. by rewrite Hq. Qed.

Lemma Query_present p key qv t st :
  URL_Query (r p) !! key = Some qv ->
  Query p key t st =
    match qv with
    | [] => (Ret (None, t), logged EvQuery st)
    | [qv0] => call (ConvertValue qv0 t) t (logged EvQuery st)
    | _ => call (ConvertSlice qv t) t (logged EvQuery st)
    end.
Proof.
  intros Hq. unfold Query, Query_of, bind, emit, ret. simpl. rewrite Hq.
  destruct qv as [|x [|y qv]]; reflexivity.
Qed.

Lemma PathValue_empty p key t st :
  default "" (PathValues (r p) !! key) = "" ->
  PathValue p key t st
  = (Ret (Some ErrorPathValueMissing, t), logged (EvPathValue key) st).
Proof.
  intros Hpv. unfold PathValue, PathValue_of, bind, emit, ret. simpl.
  by rewrite Hpv.
Qed.

Lemma length_zero_empty (s : string) : (String.length s =? 0)%nat = true <-> s = "".
Proof. destruct s; simpl; split; congruence. Qed.

Lemma PathValue_present p key t st :
  default "" (PathValues (r p) !! key) <> "" ->
  PathValue p key t st
  = call (ConvertValue (default "" (PathValues (r p) !! key)) t) t
         (logged (EvPathValue key) st).
Proof.
  intros Hpv. unfold PathValue, PathValue_of, bind, emit, ret. simpl.
  destruct (String.length _ =? 0)%nat eqn:E; [|reflexivity].
  by apply length_zero_empty in E.
Qed.

End Facts.

(** ** Single-key extraction *)

Section SingleKey.
Context `{Collaborators}.

(** C5. A key absent from the query mapping makes [Query] return
    [ErrorQueryMissing], and a key whose path lookup is absent or yields the
    empty string makes [PathValue] return [ErrorPathValueMissing]; in both
    cases the destination, whatever it is, comes back as it was and the only
    thing that happened is the lookup. *)
Theorem missing_key_errors (p : Parser) (key : string) (t : target) (st : State) :
  (URL_Query (r p) !! key = None ->
     Query p key t st = (Ret (Some ErrorQueryMissing, t), logged EvQuery st))
  /\ (PathValues (r p) !! key = None \/ PathValues (r p) !! key = Some "" ->
     PathValue p key t st
     = (Ret (Some ErrorPathValueMissing, t), logged (EvPathValue key) st)).
Proof.
  split.
  - apply Query_absent.
  - intros Hpv. apply PathValue_empty. by destruct Hpv as [-> | ->].
Qed.

(** C4. For a key present in the query mapping, [Query] looks at how many
    values it has: exactly one is handed to the scalar conversion
    ([ConvertValue]) as that single string; two or more are handed to the
    sequence conversion ([ConvertSlice]) as the whole list, in the order of
    the mapping; none at all is a success that leaves the destination as it
    was.  In each case the result of [Query] is the result of that
    conversion on the destination. *)
Theorem present_key_conversion (p : Parser) (key : string) (qv : list string)
    (t : target) (st : State) :
  URL_Query (r p) !! key = Some qv ->
  (forall qv0, qv = [qv0] ->
     Query p key t st = call (ConvertValue qv0 t) t (logged EvQuery st))
  /\ ((2 <= length qv)%nat ->
     Query p key t st = call (ConvertSlice qv t) t (logged EvQuery st))
  /\ (qv = [] ->
     Query p key t st = (Ret (None, t), logged EvQuery st)).
Proof.
  intros Hq. rewrite (Query_present _ _ _ _ _ Hq). repeat split.
  - by intros qv0 ->.
  - destruct qv as [|x [|y qv]]; simpl; intros; [lia | lia | done].
  - by intros ->.
Qed.

(** C1 (as the code has it).  For a destination that holds a value and is
    not a pointer: [Url] returns the PointerTarget error with no lookup
    made.  [Query] and [PathValue] look the key up first: an absent key
    (empty path value) gives the missing-key error, a present key without
    values gives success, and otherwise the answer is the one of the
    conversion on that destination.  In the earlier revision [QueryParam]
    and [PathValue] return the PointerTarget error with no lookup made, and
    [Url] returns a fresh error, not the sentinel. *)
Theorem pointer_check_order (p : Parser) (key : string) (v : value) (st : State) :
  Url p (Plain v) st = (Ret (Some util_ErrorPointerTarget, Plain v), st)
  /\ (URL_Query (r p) !! key = None ->
      Query p key (Plain v) st
      = (Ret (Some ErrorQueryMissing, Plain v), logged EvQuery st))
  /\ (URL_Query (r p) !! key = Some [] ->
      Query p key (Plain v) st = (Ret (None, Plain v), logged EvQuery st))
  /\ (forall qv, URL_Query (r p) !! key = Some qv -> qv <> [] ->
      Query p key (Plain v) st
      = call (convert_values qv (Plain v)) (Plain v) (logged EvQuery st))
  /\ (default "" (PathValues (r p) !! key) = "" ->
      PathValue p key (Plain v) st
      = (Ret (Some ErrorPathValueMissing, Plain v), logged (EvPathValue key) st))
  /\ (default "" (PathValues (r p) !! key) <> "" ->
      PathValue p key (Plain v) st
      = call (ConvertValue (default "" (PathValues (r p) !! key)) (Plain v))
             (Plain v) (logged (EvPathValue key) st))
  /\ Earlier.QueryParam p key (Plain v) st
     = (Ret (Some ErrorPointerTarget, Plain v), st)
  /\ Earlier.PathValue p key (Plain v) st
     = (Ret (Some ErrorPointerTarget, Plain v), st)
  /\ Earlier.Url p (Plain v) st
     = (Ret (Some (errors_New "target must be a pointer"), Plain v), st).
Proof.
  assert (Hk : bool_decide (Kind_of v <> KPtr) = true)
    by (apply bool_decide_eq_true; by destruct v).
  repeat split.
  - unfold Url. simpl. by rewrite Hk.
  - apply Query_absent.
  - intros Hq. by rewrite (Query_present _ _ _ _ _ Hq).
  - intros qv Hq Hne. rewrite (Query_present _ _ _ _ _ Hq).
    by destruct qv as [|x [|y qv]].
  - apply PathValue_empty.
  - apply PathValue_present.
  - unfold Earlier.QueryParam. simpl. by rewrite Hk.
  - unfold Earlier.PathValue. simpl. by rewrite Hk.
  - unfold Earlier.Url. simpl. by rewrite Hk.
Qed.

(** The nil interface is not a pointer either, but [Url] does not get as
    far as answering: [reflect.TypeOf(nil)] is nil and [Kind] panics. *)
Lemma Url_nil_panics (p : Parser) (st : State) : Url p Nil st = (Panic, st).
Proof. reflexivity. Qed.

(** In the earlier revision the missing-key error of [QueryParam] is
    reached only by a pointer destination, after the two checks. *)
Lemma Earlier_QueryParam_absent (p : Parser) (key : string) (v : value) (st : State) :
  URL_Query (r p) !! key = None ->
  Earlier.QueryParam p key (Pointer v) st
  = (Ret (Some ErrorQueryParamMissing, Pointer v), logged EvQuery st).
Proof.
  intros Hq. unfold Earlier.QueryParam, Query_of, Values_Has, bind, emit, ret.
  simpl. rewrite Hq. rewrite bool_decide_eq_false_2; [done|].
  by intros [? ?].
Qed.

(** With the key present, the earlier [QueryParam] stores the first value
    (the empty string when there is none) as a scalar, however many values
    the key has. *)
Lemma Earlier_QueryParam_present (p : Parser) (key : string) (qv : list string)
    (v : value) (st : State) :
  URL_Query (r p) !! key = Some qv ->
  Earlier.QueryParam p key (Pointer v) st
  = match SetValueToReflected (Kind_of v) v (default "" (head qv)) with
    | Ret v' => (Ret (None, Pointer v'), logged EvQuery (logged EvQuery st))
    | Panic => (Panic, logged EvQuery (logged EvQuery st))
    end.
Proof.
  intros Hq. unfold Earlier.QueryParam, Earlier.set_reflected, Query_of,
    Values_Has, Values_Get, bind, emit, ret, lift.
  simpl. rewrite Hq. rewrite bool_decide_eq_true_2 by eauto. simpl.
  destruct qv as [|x qv]; simpl; by destruct (SetValueToReflected _ _ _).
Qed.

End SingleKey.

(** ** Body accessors *)

Section BodyAccessors.
Context `{Collaborators}.

Lemma store_None t : store t None = t.
Proof. by destruct t. Qed.

Lemma Text_buffered p st :
  (0 < len_bytes p)%nat ->
  Text p st = (Ret (string_of_bytes (payload p), None), st).
Proof.
  intros Hlen. unfold Text.
  by destruct (Nat.ltb_spec 0 (len_bytes p)); [|lia].
Qed.

Lemma Text_live p st b :
  len_bytes p = 0%nat -> Body st = Some b ->
  Text p st
  = (Ret (string_of_bytes (pending b), fault b),
     {| Body := Some (drained b); MultipartForm := MultipartForm st;
        trace := trace st ++ [EvReadBody] |}).
Proof.
  intros Hlen Hb. unfold Text. rewrite Hlen. simpl.
  unfold bind, get_Body. rewrite Hb. reflexivity.
Qed.

Lemma Text_times_buffered p n st :
  (0 < len_bytes p)%nat ->
  Text_times p n st = (Ret (repeat (string_of_bytes (payload p), None) n), st).
Proof.
  intros Hlen. induction n as [|n IH]; [reflexivity|].
  simpl. unfold bind. rewrite Text_buffered by done. by rewrite IH.
Qed.

Lemma Text_times_drained p n st b :
  len_bytes p = 0%nat -> Body st = Some b -> pending b = [] ->
  (Text_times p n st).1 = Ret (repeat ("", fault b) n).
Proof.
  intros Hlen. revert st b.
  induction n as [|n IH]; intros st b Hb Hp; [reflexivity|].
  simpl. unfold bind. rewrite (Text_live _ _ _ Hlen Hb).
  match goal with |- context [Text_times p n ?s] =>
    specialize (IH s (drained b) eq_refl eq_refl);
    destruct (Text_times p n s) as [[outs|] s'] end;
    simpl in IH; [|done].
  injection IH as ->. by rewrite Hp.
Qed.

(** C8 (as the code has it).  With a buffered payload of at least one
    byte, any number of calls of [Text] return the payload as a string each
    time and change nothing.  With no payload bytes and a live stream, the
    first call returns everything the stream holds and each later call
    returns the empty string. *)
Theorem Text_repeated (p : Parser) (st : State) (n : nat) :
  ((0 < len_bytes p)%nat ->
     Text_times p n st = (Ret (repeat (string_of_bytes (payload p), None) n), st))
  /\ (len_bytes p = 0%nat -> forall b, Body st = Some b ->
     (Text_times p (S n) st).1
     = Ret ((string_of_bytes (pending b), fault b) :: repeat ("", fault b) n)).
Proof.
  split; [apply Text_times_buffered|].
  intros Hlen b Hb. simpl. unfold bind. rewrite (Text_live _ _ _ Hlen Hb).
  match goal with |- context [Text_times p n ?s] =>
    pose proof (Text_times_drained p n s (drained b) Hlen eq_refl eq_refl) as Hn;
    destruct (Text_times p n s) as [[outs|] s'] end; simpl in Hn; [|done].
  by injection Hn as ->.
Qed.

(** C7. With no payload bytes, [Json] on a request whose body is absent,
    or is a stream that ends before any byte, returns no error and the
    destination, whatever it is, comes back as it was. *)
Theorem Json_empty_body (p : Parser) (t : target) (st : State) :
  len_bytes p = 0%nat ->
  Body st = None \/ Body st = Some {| pending := []; fault := None |} ->
  exists st', Json p t st = (Ret (None, t), st') /\ Body st' = Body st.
Proof.
  intros Hlen Hb. unfold Json. rewrite Hlen. simpl. unfold bind, get_Body.
  destruct Hb as [Hb | Hb]; rewrite Hb.
  - by exists st.
  - unfold Decode_Body, bind, emit. rewrite json_Decode_EOF. simpl.
    rewrite store_None. simpl. eexists. split; [reflexivity|]. done.
Qed.

End BodyAccessors.

(** ** Multipart files *)

Section Multiparts.
Context `{Collaborators}.

Lemma shl64_exact (L : Z) :
  - 2 ^ 43 <= L < 2 ^ 43 -> shl64 L 20 = L * 2 ^ 20.
Proof.
  intros HL. unfold shl64, int64. rewrite Z.shiftl_mul_pow2 by lia.
  change (2 ^ 43) with 8796093022208 in HL.
  change (2 ^ 20) with 1048576.
  change (2 ^ 63) with 9223372036854775808.
  change (2 ^ 64) with 18446744073709551616.
  rewrite Z.mod_small; lia.
Qed.

Lemma shl64_wraps (L : Z) : shl64 L 20 = int64 (L * 2 ^ 20).
Proof. unfold shl64. by rewrite Z.shiftl_mul_pow2 by lia. Qed.

Lemma parseMultipartForm_not_multipart p st :
  IsRequestMultipart (r p) = false ->
  parseMultipartForm p st = (Ret (Some ErrorInvalidMultipart), st).
Proof. intros Hm. unfold parseMultipartForm. by rewrite Hm. Qed.

Lemma parseMultipartForm_decoded p st entries :
  IsRequestMultipart (r p) = true -> decoded p st = Some entries ->
  parseMultipartForm p st = (Ret None, parsed p entries st).
Proof.
  intros Hm Hd. unfold parseMultipartForm, ParseMultipartForm, bind, emit,
    get_MultipartForm, get_Body, consume_Body, decoded, parsed,
    Body_after_parse, logged in *. rewrite Hm. simpl.
  destruct (MultipartForm st) as [f|] eqn:Hf.
  - by injection Hd as ->.
  - simpl. destruct (ReadForm (r p) (shl64 (limit p) 20) (Body st)) as [e|f]; [done|].
    by injection Hd as ->.
Qed.

Lemma parseMultipartForm_failed p st :
  IsRequestMultipart (r p) = true -> decoded p st = None ->
  exists e st',
    parseMultipartForm p st = (Ret (Some e), st')
    /\ ReadForm (r p) (shl64 (limit p) 20) (Body st) = inl e
    /\ MultipartForm st' = None
    /\ trace st' = trace st ++ [EvParseMultipartForm (shl64 (limit p) 20)].
Proof.
  intros Hm Hd. unfold parseMultipartForm, ParseMultipartForm, bind, emit,
    get_MultipartForm, get_Body, consume_Body, decoded in *. rewrite Hm. simpl.
  destruct (MultipartForm st) as [f|] eqn:Hf; [done|]. simpl.
  destruct (ReadForm (r p) (shl64 (limit p) 20) (Body st)) as [e|f]; [|done].
  eexists e, _. by repeat split.
Qed.

Lemma createMultiparts_parsed p names entries st :
  createMultiparts p names (parsed p entries st)
  = (Ret (range_File (match names with [] => "" | n :: _ => n end) entries []),
     parsed p entries st).
Proof. reflexivity. Qed.

Lemma read_files_readable name files acc :
  Forall (fun file => exists f, Open file = inr f /\ fault f = None) files ->
  read_files name files acc = (acc ++ omap (part_of name) files, None).
Proof.
  intros Hr. revert acc. induction Hr as [|file files (f & Hopen & Hfault) _ IH];
    intros acc; simpl.
  - by rewrite app_nil_r.
  - unfold part_of. rewrite Hopen. simpl. rewrite Hfault. rewrite IH.
    by rewrite <- app_assoc.
Qed.

Lemma selects_named fn name :
  (0 < String.length fn)%nat -> selects fn name = true <-> name = fn.
Proof.
  intros Hfn. unfold selects.
  destruct (Nat.ltb_spec 0 (String.length fn)); [|lia].
  destruct (String.eqb_spec name fn); simpl; split; congruence.
Qed.

Lemma selects_unnamed name : selects "" name = true.
Proof. reflexivity. Qed.

Lemma selects_false fn name :
  selects fn name = false <-> fn <> "" /\ name <> fn.
Proof.
  unfold selects. destruct fn as [|c fn]; simpl.
  - split; [done | by intros [? _]].
  - destruct (String.eqb_spec name (String c fn)); simpl; split; try done.
    by intros [_ ?].
Qed.

Lemma range_File_skipped fn entries acc :
  Forall (fun e => selects fn e.1 = false) entries ->
  range_File fn entries acc = (acc, None).
Proof.
  intros Hall. induction Hall as [|[name files] entries Hskip _ IH]; [done|].
  simpl in *. unfold selects in Hskip. apply negb_false_iff in Hskip.
  rewrite Hskip. apply IH.
Qed.

Lemma range_File_unfiltered entries acc :
  readable entries ->
  range_File "" entries acc = (acc ++ parts_of entries, None).
Proof.
  intros Hr. revert acc. induction Hr as [|[name files] entries Hfiles _ IH];
    intros acc; simpl.
  - by rewrite app_nil_r.
  - rewrite (read_files_readable _ _ _ Hfiles). rewrite IH.
    unfold parts_of. simpl. by rewrite <- app_assoc.
Qed.

Lemma range_File_named fn (entries : list (string * list FileHeader)) acc :
  (0 < String.length fn)%nat -> readable entries ->
  range_File fn entries acc
  = (acc ++ parts_of (filter (fun e => e.1 = fn) entries), None).
Proof.
  intros Hfn Hr. revert acc.
  induction Hr as [|[name files] entries Hfiles _ IH]; intros acc.
  - simpl. by rewrite app_nil_r.
  - rewrite filter_cons. cbn [range_File].
    destruct (Nat.ltb_spec 0 (String.length fn)); [|lia].
    destruct (String.eqb_spec name fn) as [-> | Hne]; cbn [andb negb].
    + rewrite (read_files_readable _ _ _ Hfiles). rewrite IH.
      rewrite decide_True by done.
      unfold parts_of. cbn [map concat fst snd]. by rewrite <- app_assoc.
    + rewrite IH. by rewrite decide_False.
Qed.


Lemma File_trace p name st :
  len_bytes p = 0%nat -> IsRequestMultipart (r p) = true ->
  trace (File p name st).2
  = (trace st ++ [EvParseMultipartForm (shl64 (limit p) 20)]).
Proof.
  intros Hlen Hm. unfold File, bind. rewrite Hlen. simpl.
  destruct (decoded p st) as [entries|] eqn:Hd.
  - rewrite (parseMultipartForm_decoded _ _ _ Hm Hd).
    rewrite createMultiparts_parsed.
    destruct (range_File name entries []) as [[|first rest] [e|]]; reflexivity.
  - destruct (parseMultipartForm_failed _ _ Hm Hd) as (e & st' & -> & _ & _ & Htr).
    exact Htr.
Qed.

Lemma Files_trace p names st :
  len_bytes p = 0%nat -> IsRequestMultipart (r p) = true ->
  trace (Files p names st).2
  = (trace st ++ [EvParseMultipartForm (shl64 (limit p) 20)]).
Proof.
  intros Hlen Hm. unfold Files, bind. rewrite Hlen. simpl.
  destruct (decoded p st) as [entries|] eqn:Hd.
  - rewrite (parseMultipartForm_decoded _ _ _ Hm Hd).
    rewrite createMultiparts_parsed.
    destruct (range_File _ entries []) as [parts [e|]]; reflexivity.
  - destruct (parseMultipartForm_failed _ _ Hm Hd) as (e & st' & -> & _ & _ & Htr).
    exact Htr.
Qed.

(** C9 (as the code has it).  With no payload bytes and a multipart
    request, [File] and [Files] make exactly one call to the multipart
    decode, with the byte limit [limit << 20] computed on [int64]: that is
    [limit * 2^20] wrapped to 64 bits, and exactly [limit * 2^20] when
    [-2^43 <= limit < 2^43]. *)
Theorem multipart_byte_limit (p : Parser) (name : string) (names : list string)
    (st : State) :
  len_bytes p = 0%nat -> IsRequestMultipart (r p) = true ->
  (trace (File p name st).2
   = (trace st ++ [EvParseMultipartForm (int64 (limit p * 2 ^ 20))])
   /\ trace (Files p names st).2
   = (trace st ++ [EvParseMultipartForm (int64 (limit p * 2 ^ 20))]))
  /\ (- 2 ^ 43 <= limit p < 2 ^ 43 ->
      trace (File p name st).2
      = (trace st ++ [EvParseMultipartForm (limit p * 2 ^ 20)])
      /\ trace (Files p names st).2
      = (trace st ++ [EvParseMultipartForm (limit p * 2 ^ 20)])).
Proof.
  intros Hlen Hm.
  rewrite (File_trace _ _ _ Hlen Hm), (Files_trace _ _ _ Hlen Hm).
  split.
  - by rewrite shl64_wraps.
  - intros HL. by rewrite (shl64_exact _ HL).
Qed.

(** What [Files] returns on a multipart request whose files all open and
    read: without names, the parts of every field; with names, the first
    name alone decides (the empty string selects every field). *)
Lemma Files_readable (p : Parser) (names : list string)
    (entries : list (string * list FileHeader)) (st : State) :
  len_bytes p = 0%nat -> IsRequestMultipart (r p) = true ->
  decoded p st = Some entries -> readable entries ->
  (Files p names st).1
  = Ret (match names with
         | [] => parts_of entries
         | n :: _ =>
             if (0 <? String.length n)%nat
             then parts_of (filter (fun e => e.1 = n) entries)
             else parts_of entries
         end, None).
Proof.
  intros Hlen Hm Hd Hr. unfold Files, bind. rewrite Hlen. simpl.
  rewrite (parseMultipartForm_decoded _ _ _ Hm Hd).
  rewrite createMultiparts_parsed.
  destruct names as [|n rest].
  - by rewrite (range_File_unfiltered _ _ Hr).
  - destruct (Nat.ltb_spec 0 (String.length n)) as [Hn | Hn].
    + by rewrite (range_File_named _ _ _ Hn Hr).
    + destruct n; [|simpl in Hn; lia]. by rewrite (range_File_unfiltered _ _ Hr).
Qed.

Lemma Files_later_names_ignored (p : Parser) (n : string) (rest : list string)
    (st : State) :
  Files p (n :: rest) st = Files p [n] st.
Proof. reflexivity. Qed.

(** C10. A parser built with a payload that was supplied but has no bytes
    answers every body and file accessor exactly as the parser built without
    a payload does, from every state, and it does so by going to the
    request.  On a live body [Text] reads the stream to its end, and [Json]
    and [Xml] hand the stream to the decoder, return what it returned
    ([Json] with end of stream turned into success) and leave the stream
    where the decoder stopped.  [File] and [Files] go on to the multipart
    check: a request that is not multipart gets [ErrorInvalidMultipart], and
    on a multipart request they call the decode once and, when the form
    decodes, return the parts the range over the form yields (the first of
    them for [File]) instead of answering empty. *)
Theorem empty_payload_is_no_payload (req : Request) (L : Z) (t : target)
    (name : string) (names : list string) (st : State) :
  let p := New req (Some []) L in
  let p0 := New req None L in
  (Text p st = Text p0 st
   /\ Json p t st = Json p0 t st
   /\ Xml p t st = Xml p0 t st
   /\ File p name st = File p0 name st
   /\ Files p names st = Files p0 names st)
  /\ (forall b, Body st = Some b ->
        Text p st
        = (Ret (string_of_bytes (pending b), fault b),
           {| Body := Some (drained b); MultipartForm := MultipartForm st;
              trace := trace st ++ [EvReadBody] |})
        /\ Json p t st
           = (match (json_Decode b t).1 with
              | Ret (e, w) =>
                  Ret (if bool_decide (e = Some io_EOF) then None else e, store t w)
              | Panic => Panic
              end,
              {| Body := Some (json_Decode b t).2; MultipartForm := MultipartForm st;
                 trace := trace st ++ [EvReadBody] |})
        /\ Xml p t st
           = (match (xml_Decode b t).1 with
              | Ret (e, w) => Ret (e, store t w)
              | Panic => Panic
              end,
              {| Body := Some (xml_Decode b t).2; MultipartForm := MultipartForm st;
                 trace := trace st ++ [EvReadBody] |}))
  /\ (IsRequestMultipart req = false ->
        File p name st = (Ret (Multipart_zero, Some ErrorInvalidMultipart), st)
        /\ Files p names st = (Ret ([], Some ErrorInvalidMultipart), st))
  /\ (IsRequestMultipart req = true ->
        trace (File p name st).2 = trace st ++ [EvParseMultipartForm (shl64 L 20)]
        /\ trace (Files p names st).2
           = trace st ++ [EvParseMultipartForm (shl64 L 20)]
        /\ forall entries, decoded p st = Some entries ->
             File p name st
             = (Ret (match range_File name entries [] with
                     | (first :: _, None) => (first, None)
                     | ([], None) => (Multipart_zero, None)
                     | (_, Some err) => (Multipart_zero, Some err)
                     end), parsed p entries st)
             /\ Files p names st
                = (Ret (match range_File (match names with
                                          | [] => ""
                                          | n :: _ => n
                                          end) entries [] with
                        | (parts, None) => (parts, None)
                        | (_, Some err) => ([], Some err)
                        end), parsed p entries st)).
Proof.
  intros p p0. split; [by repeat split|]. split; [|split].
  - intros b Hb. split; [by apply Text_live|].
    unfold Json, Xml, Decode_Body, bind, get_Body, emit, set_Body. simpl.
    rewrite Hb. split.
    + destruct (json_Decode b t) as [[[e w]|] b']; simpl; [|done].
      by case_bool_decide.
    + by destruct (xml_Decode b t) as [[[e w]|] b'].
  - intros Hm. split.
    + unfold File, parseMultipartForm, bind. simpl. by rewrite Hm.
    + unfold Files, parseMultipartForm, bind. simpl. by rewrite Hm.
  - intros Hm.
    assert (Hm' : IsRequestMultipart (r p) = true) by exact Hm.
    split; [exact (File_trace p name st eq_refl Hm')|].
    split; [exact (Files_trace p names st eq_refl Hm')|].
    intros entries Hd. unfold File, Files, bind.
    change (len_bytes p) with 0%nat. simpl.
    rewrite (parseMultipartForm_decoded p st entries Hm' Hd).
    rewrite !createMultiparts_parsed. split.
    + by destruct (range_File name entries []) as [[|first rest] [e|]].
    + by destruct (range_File _ entries []) as [parts [e|]].
Qed.

End Multiparts.

(** ** Struct binding *)

Section StructBinder.
Context `{Collaborators}.

Lemma call_at_field c v st :
  call c (Pointer v) st = (at_field (stored v c), st).
Proof. by destruct c as [[err [w|]]|]. Qed.

Lemma processQuery_outcome p info v st :
  processQuery p info (Pointer v) st
  = (at_field (query_outcome p info v), logged EvQuery st).
Proof.
  unfold processQuery, query_outcome, Query_of, bind, emit, ret, index. simpl.
  destruct (URL_Query (r p) !! Tag_Get info "query") as [[|x [|y qv]]|];
    simpl; try done; apply call_at_field.
Qed.

Lemma processPathValue_outcome p info v st :
  processPathValue p info (Pointer v) st
  = (at_field (path_outcome p info v),
     logged (EvPathValue (Tag_Get info "path")) st).
Proof.
  unfold processPathValue, path_outcome, PathValue_of, bind, emit, ret. simpl.
  destruct (String.eqb _ ""); [done|]. apply call_at_field.
Qed.

(** One successful turn of the loop. *)
Lemma Url_fields_turn p k rest fs st fs' st' :
  Url_fields p (k :: rest) fs st = (Ret (None, fs'), st') ->
  exists info v vq vp,
    fs !! k = Some (info, v)
    /\ query_outcome p info v = Ret (None, vq)
    /\ path_outcome p info vq = Ret (None, vp)
    /\ Url_fields p rest (<[k := (info, vp)]> (<[k := (info, vq)]> fs))
         (logged (EvPathValue (Tag_Get info "path")) (logged EvQuery st))
       = (Ret (None, fs'), st').
Proof.
  cbn [Url_fields]. unfold bind at 1. unfold index.
  destruct (fs !! k) as [[info v]|]; [|done]. cbn [ret fst snd].
  destruct (Exported info); cbn [negb]; [|done].
  unfold bind at 1. rewrite processQuery_outcome.
  destruct (query_outcome p info v) as [[[e|] vq]|] eqn:Hq;
    cbn [at_field fst snd through]; try unfold ret; [done| |done].
  unfold bind at 1. rewrite processPathValue_outcome.
  destruct (path_outcome p info vq) as [[[e|] vp]|] eqn:Hp;
    cbn [at_field fst snd through]; try unfold ret; [done| |done].
  intros Hrest. by exists info, v, vq, vp.
Qed.

Lemma Url_fields_elsewhere p idx fs st fs' st' j :
  Url_fields p idx fs st = (Ret (None, fs'), st') ->
  j ∉ idx -> fs' !! j = fs !! j.
Proof.
  revert fs st. induction idx as [|k rest IH]; intros fs st Hrun Hj.
  - by injection Hrun as ->.
  - apply Url_fields_turn in Hrun as (info & v & vq & vp & _ & _ & _ & Hrest).
    apply not_elem_of_cons in Hj as [Hjk Hj].
    rewrite (IH _ _ Hrest Hj).
    by rewrite !list_lookup_insert_ne.
Qed.

Lemma Url_fields_bound p idx fs st fs' st' i info v0 :
  Url_fields p idx fs st = (Ret (None, fs'), st') ->
  NoDup idx -> i ∈ idx -> fs !! i = Some (info, v0) ->
  exists vq vp,
    query_outcome p info v0 = Ret (None, vq)
    /\ path_outcome p info vq = Ret (None, vp)
    /\ fs' !! i = Some (info, vp).
Proof.
  revert fs st. induction idx as [|k rest IH]; intros fs st Hrun Hnd Hi Hfs.
  - by apply elem_of_nil in Hi.
  - apply NoDup_cons in Hnd as [Hk Hnd].
    apply Url_fields_turn in Hrun as (info' & v & vq & vp & Hk' & Hq & Hp & Hrest).
    destruct (decide (i = k)) as [-> | Hne].
    + rewrite Hfs in Hk'. injection Hk' as <- <-.
      exists vq, vp. repeat split; [done..|].
      rewrite (Url_fields_elsewhere _ _ _ _ _ _ _ Hrest Hk).
      apply list_lookup_insert_eq. rewrite length_insert.
      by apply lookup_lt_Some in Hfs.
    + apply (IH _ _ Hrest Hnd).
      * apply elem_of_cons in Hi as [? | ?]; done.
      * by rewrite !list_lookup_insert_ne.
Qed.

(** C2 (as the code has it).  For a field carrying a query tag and a path
    tag, with the query key present and the path lookup yielding a non-empty
    string: whenever [Url] returns without error, the query conversion (if
    the key has values) ran first and stored into the field, the path
    conversion ran on the field as the query step left it, and the field
    ends up holding what the path conversion stored. *)
Theorem path_applied_after_query (p : Parser) (fs : list (StructField * value))
    (i : nat) (info : StructField) (v0 : value) (qv : list string)
    (out : target) (st st' : State) :
  fs !! i = Some (info, v0) ->
  URL_Query (r p) !! Tag_Get info "query" = Some qv ->
  default "" (PathValues (r p) !! Tag_Get info "path") <> "" ->
  Url p (Pointer (VStruct fs)) st = (Ret (None, out), st') ->
  exists vq w,
    match qv with
    | [] => vq = v0
    | _ => exists wq,
        convert_values qv (Pointer v0) = Ret (None, wq) /\ vq = written v0 wq
    end
    /\ ConvertValue (default "" (PathValues (r p) !! Tag_Get info "path"))
         (Pointer vq) = Ret (None, w)
    /\ field_value i out = Some (written vq w).
Proof.
  intros Hfs Hq Hpv Hrun. unfold Url in Hrun. simpl in Hrun.
  unfold bind in Hrun.
  destruct (Url_fields p (seq 0 (length fs)) fs st) as [[[e fs']|] st1] eqn:Hloop;
    [|done].
  simpl in Hrun. injection Hrun as -> <- <-.
  destruct (Url_fields_bound _ _ _ _ _ _ i info v0 Hloop) as (vq & vp & Hvq & Hvp & Hi);
    [apply NoDup_seq | | done |].
  { apply elem_of_seq. apply lookup_lt_Some in Hfs. lia. }
  unfold path_outcome in Hvp. simpl in Hvp.
  destruct (String.eqb_spec (default "" (PathValues (r p) !! Tag_Get info "path")) "")
    as [Heq | _]; [done|].
  destruct (ConvertValue _ (Pointer vq)) as [[e w]|] eqn:Hconv; [|done].
  simpl in Hvp. injection Hvp as -> <-.
  exists vq, w. split; [|split; [done|]].
  - unfold query_outcome in Hvq. rewrite Hq in Hvq.
    destruct qv as [|x qv']; [by injection Hvq as <-|].
    destruct (convert_values (x :: qv') (Pointer v0)) as [[e wq]|]; [|done].
    simpl in Hvq. injection Hvq as -> <-. by exists wq.
  - simpl. by rewrite Hi.
Qed.

End StructBinder.

(** ** More on struct binding *)

Section StructBinderMore.
Context `{Collaborators}.

(** One turn of the loop, whatever its outcome. *)
Lemma Url_fields_unfold p k rest fs st :
  Url_fields p (k :: rest) fs st =
  match fs !! k with
  | None => (Panic, st)
  | Some (info, v) =>
      if Exported info then
        match query_outcome p info v with
        | Panic => (Panic, logged EvQuery st)
        | Ret (Some e, vq) =>
            (Ret (Some e, <[k := (info, vq)]> fs), logged EvQuery st)
        | Ret (None, vq) =>
            match path_outcome p info vq with
            | Panic =>
                (Panic, logged (EvPathValue (Tag_Get info "path")) (logged EvQuery st))
            | Ret (Some e, vp) =>
                (Ret (Some e, <[k := (info, vp)]> (<[k := (info, vq)]> fs)),
                 logged (EvPathValue (Tag_Get info "path")) (logged EvQuery st))
            | Ret (None, vp) =>
                Url_fields p rest (<[k := (info, vp)]> (<[k := (info, vq)]> fs))
                  (logged (EvPathValue (Tag_Get info "path")) (logged EvQuery st))
            end
        end
      else (Panic, st)
  end.
Proof.
  cbn [Url_fields]. unfold bind at 1. unfold index.
  destruct (fs !! k) as [[info v]|]; [|done]. cbn [ret fst snd].
  destruct (Exported info); cbn [negb]; [|done].
  unfold bind at 1. rewrite processQuery_outcome.
  destruct (query_outcome p info v) as [[[e|] vq]|];
    cbn [at_field fst snd through]; try unfold ret; [done| |done].
  unfold bind at 1. rewrite processPathValue_outcome.
  by destruct (path_outcome p info vq) as [[[e|] vp]|].
Qed.

Lemma insert_keeps_info (fs : list (StructField * value)) k info v x :
  fs !! k = Some (info, v) -> (<[k := (info, x)]> fs).*1 = fs.*1.
Proof.
  intros Hk. rewrite list_fmap_insert. apply list_insert_id.
  by rewrite list_lookup_fmap, Hk.
Qed.

Lemma insert_twice_keeps_info (fs : list (StructField * value)) k info v x y :
  fs !! k = Some (info, v) ->
  (<[k := (info, y)]> (<[k := (info, x)]> fs)).*1 = fs.*1.
Proof.
  intros Hk. rewrite list_insert_insert_eq. by eapply insert_keeps_info.
Qed.

Lemma Url_fields_shape p idx fs st e fs' st' :
  Url_fields p idx fs st = (Ret (e, fs'), st') -> fs'.*1 = fs.*1.
Proof.
  revert fs st. induction idx as [|k rest IH]; intros fs st Hrun.
  - by injection Hrun as _ ->.
  - rewrite Url_fields_unfold in Hrun.
    destruct (fs !! k) as [[info v]|] eqn:Hk; [|done].
    destruct (Exported info); [|done].
    destruct (query_outcome p info v) as [[[eq|] vq]|]; [| |done].
    { injection Hrun as _ <- _. by eapply insert_keeps_info. }
    destruct (path_outcome p info vq) as [[[ep|] vp]|]; [| |done].
    { injection Hrun as _ <- _. by eapply insert_twice_keeps_info. }
    rewrite (IH _ _ Hrun). by eapply insert_twice_keeps_info.
Qed.

(** X1. Whatever [Url] returns for a pointer to a struct, error or not, the
    destination is still a pointer to a struct with the same fields (names
    and tags) in the same order: only field values change. *)
Theorem Url_keeps_fields (p : Parser) (fs : list (StructField * value))
    (e : option error) (out : target) (st st' : State) :
  Url p (Pointer (VStruct fs)) st = (Ret (e, out), st') ->
  exists fs', out = Pointer (VStruct fs')
              /\ fs'.*1 = fs.*1 /\ length fs' = length fs.
Proof.
  intros Hrun. unfold Url in Hrun. simpl in Hrun. unfold bind in Hrun.
  destruct (Url_fields p (seq 0 (length fs)) fs st) as [[[e1 fs']|] st1] eqn:Hloop;
    [|done].
  simpl in Hrun. injection Hrun as _ <- _.
  pose proof (Url_fields_shape _ _ _ _ _ _ _ Hloop) as Hshape.
  exists fs'. split; [done|]. split; [done|].
  by rewrite <- (length_fmap fst fs'), Hshape, length_fmap.
Qed.

Lemma Url_fields_idle p idx fs st e fs' st' i info v0 :
  Url_fields p idx fs st = (Ret (e, fs'), st') ->
  fs !! i = Some (info, v0) ->
  query_outcome p info v0 = Ret (None, v0) ->
  path_outcome p info v0 = Ret (None, v0) ->
  fs' !! i = Some (info, v0).
Proof.
  intros Hrun Hi Hq Hp. revert fs st Hrun Hi.
  induction idx as [|k rest IH]; intros fs st Hrun Hi.
  - by injection Hrun as _ ->.
  - rewrite Url_fields_unfold in Hrun.
    destruct (decide (k = i)) as [-> | Hne].
    + rewrite Hi in Hrun. destruct (Exported info); [|done].
      rewrite Hq, Hp in Hrun. apply (IH _ _ Hrun).
      rewrite list_insert_insert_eq. apply list_lookup_insert_eq.
      by apply lookup_lt_Some in Hi.
    + destruct (fs !! k) as [[info' v]|] eqn:Hk; [|done].
      destruct (Exported info'); [|done].
      destruct (query_outcome p info' v) as [[[eq|] vq]|]; [| |done].
      { injection Hrun as _ <- _. by rewrite list_lookup_insert_ne. }
      destruct (path_outcome p info' vq) as [[[ep|] vp]|]; [| |done].
      { injection Hrun as _ <- _. by rewrite !list_lookup_insert_ne. }
      apply (IH _ _ Hrun). by rewrite !list_lookup_insert_ne.
Qed.

(** X2. A field whose query key is not in the query mapping (or is there
    without values) and whose path lookup yields the empty string keeps its
    value through [Url], whether [Url] ends in success or in the error of
    another field. *)
Theorem Url_leaves_unmatched_field (p : Parser) (fs : list (StructField * value))
    (i : nat) (info : StructField) (v0 : value)
    (e : option error) (out : target) (st st' : State) :
  fs !! i = Some (info, v0) ->
  URL_Query (r p) !! Tag_Get info "query" = None
  \/ URL_Query (r p) !! Tag_Get info "query" = Some [] ->
  default "" (PathValues (r p) !! Tag_Get info "path") = "" ->
  Url p (Pointer (VStruct fs)) st = (Ret (e, out), st') ->
  field_value i out = Some v0.
Proof.
  intros Hi Hq Hpv Hrun. unfold Url in Hrun. simpl in Hrun. unfold bind in Hrun.
  destruct (Url_fields p (seq 0 (length fs)) fs st) as [[[e1 fs']|] st1] eqn:Hloop;
    [|done].
  simpl in Hrun. injection Hrun as _ <- _. simpl.
  erewrite (Url_fields_idle _ _ _ _ _ _ _ i info v0 Hloop Hi); [done| |].
  - unfold query_outcome. by destruct Hq as [-> | ->].
  - unfold path_outcome. by rewrite Hpv.
Qed.

Lemma Url_fields_frame p idx fs st e fs' st' j :
  Url_fields p idx fs st = (Ret (e, fs'), st') ->
  j ∉ idx -> fs' !! j = fs !! j.
Proof.
  revert fs st. induction idx as [|k rest IH]; intros fs st Hrun Hj.
  - by injection Hrun as _ ->.
  - apply not_elem_of_cons in Hj as [Hjk Hj].
    rewrite Url_fields_unfold in Hrun.
    destruct (fs !! k) as [[info v]|]; [|done].
    destruct (Exported info); [|done].
    destruct (query_outcome p info v) as [[[eq|] vq]|]; [| |done].
    { injection Hrun as _ <- _. by rewrite list_lookup_insert_ne. }
    destruct (path_outcome p info vq) as [[[ep|] vp]|]; [| |done].
    { injection Hrun as _ <- _. by rewrite !list_lookup_insert_ne. }
    rewrite (IH _ _ Hrun Hj). by rewrite !list_lookup_insert_ne.
Qed.

Lemma Url_fields_halt p n : forall a fs st e fs' st',
  Url_fields p (seq a n) fs st = (Ret (Some e, fs'), st') ->
  exists k info v vk,
    (a <= k < a + n)%nat /\ fs !! k = Some (info, v)
    /\ fs' !! k = Some (info, vk)
    /\ (query_outcome p info v = Ret (Some e, vk)
        \/ exists vq, query_outcome p info v = Ret (None, vq)
             /\ path_outcome p info vq = Ret (Some e, vk))
    /\ (forall j, (k < j)%nat -> fs' !! j = fs !! j)
    /\ (forall j info_j v_j, (a <= j < k)%nat -> fs !! j = Some (info_j, v_j) ->
         exists vq vp,
           query_outcome p info_j v_j = Ret (None, vq)
           /\ path_outcome p info_j vq = Ret (None, vp)
           /\ fs' !! j = Some (info_j, vp)).
Proof.
  induction n as [|n IH]; intros a fs st e fs' st' Hrun; [done|].
  cbn [seq] in Hrun. pose proof Hrun as Hwhole. rewrite Url_fields_unfold in Hrun.
  destruct (fs !! a) as [[info v]|] eqn:Ha; [|done].
  assert (Hlt : (a < length fs)%nat) by (by apply lookup_lt_Some in Ha).
  destruct (Exported info); [|done].
  destruct (query_outcome p info v) as [[[eq|] vq]|] eqn:Hq; [| |done].
  { injection Hrun as <- <- _. exists a, info, v, vq.
    split; [lia|]. split; [done|].
    split; [by rewrite list_lookup_insert_eq|]. split; [by left|].
    split; [|intros; lia].
    intros j Hj. apply list_lookup_insert_ne. lia. }
  destruct (path_outcome p info vq) as [[[ep|] vp]|] eqn:Hp; [| |done].
  { injection Hrun as <- <- _. exists a, info, v, vp.
    split; [lia|]. split; [done|].
    split; [by rewrite list_lookup_insert_eq by (by rewrite length_insert)|].
    split; [right; by exists vq|].
    split; [|intros; lia].
    intros j Hj. rewrite !list_lookup_insert_ne by lia. done. }
  destruct (IH _ _ _ _ _ _ Hrun)
    as (k & info' & v' & vk & Hk & Hfk & Hfk' & Hfail & Hlater & Hearlier).
  rewrite !list_lookup_insert_ne in Hfk by lia.
  exists k, info', v', vk. split; [lia|]. do 3 (split; [done|]). split.
  - intros j Hj. rewrite (Hlater j Hj). rewrite !list_lookup_insert_ne by lia. done.
  - intros j info_j v_j Hj Hfj. destruct (decide (j = a)) as [-> | Hne].
    + rewrite Ha in Hfj. injection Hfj as <- <-. exists vq, vp.
      split; [done|]. split; [done|].
      rewrite (Url_fields_frame _ _ _ _ _ _ _ a Hrun).
      * by rewrite list_lookup_insert_eq by (by rewrite length_insert).
      * intros Hin. apply elem_of_seq in Hin. lia.
    + apply Hearlier; [lia|]. by rewrite !list_lookup_insert_ne by done.
Qed.

(** X3. When [Url] returns an error, it is the error of the query or the
    path conversion of one field [k].  That field holds what the failed
    conversion left in it; every field after [k] still has the value it
    had, for the loop stopped there; and every field before [k] holds what
    its own two steps stored, which both returned no error: what was bound
    before the failure stays bound. *)
Theorem Url_stops_at_first_error (p : Parser) (fs : list (StructField * value))
    (e : error) (out : target) (st st' : State) :
  Url p (Pointer (VStruct fs)) st = (Ret (Some e, out), st') ->
  exists k info v vk,
    fs !! k = Some (info, v)
    /\ field_value k out = Some vk
    /\ (query_outcome p info v = Ret (Some e, vk)
        \/ exists vq, query_outcome p info v = Ret (None, vq)
             /\ path_outcome p info vq = Ret (Some e, vk))
    /\ (forall j, (k < j)%nat -> field_value j out = snd <$> fs !! j)
    /\ (forall j info_j v_j, (j < k)%nat -> fs !! j = Some (info_j, v_j) ->
         exists vq vp,
           query_outcome p info_j v_j = Ret (None, vq)
           /\ path_outcome p info_j vq = Ret (None, vp)
           /\ field_value j out = Some vp).
Proof.
  intros Hrun. unfold Url in Hrun. simpl in Hrun. unfold bind in Hrun.
  destruct (Url_fields p (seq 0 (length fs)) fs st) as [[[e1 fs']|] st1] eqn:Hloop;
    [|done].
  simpl in Hrun. injection Hrun as -> <- _.
  destruct (Url_fields_halt _ _ _ _ _ _ _ _ Hloop)
    as (k & info & v & vk & _ & Hk & Hk' & Hfail & Hlater & Hearlier).
  exists k, info, v, vk. split; [done|]. split; [simpl; by rewrite Hk'|].
  split; [exact Hfail|]. split.
  - intros j Hj. simpl. by rewrite (Hlater j Hj).
  - intros j info_j v_j Hj Hfj.
    destruct (Hearlier j info_j v_j ltac:(lia) Hfj) as (vq & vp & Hq & Hp & Hout).
    exists vq, vp. split; [done|]. split; [done|]. simpl. by rewrite Hout.
Qed.

Lemma Url_fields_exported p idx : forall fs st fs' st',
  Url_fields p idx fs st = (Ret (None, fs'), st') ->
  forall k info, k ∈ idx -> fs.*1 !! k = Some info -> Exported info = true.
Proof.
  induction idx as [|a rest IH]; intros fs st fs' st' Hrun k info Hk Hinfo.
  - by apply elem_of_nil in Hk.
  - rewrite Url_fields_unfold in Hrun.
    destruct (fs !! a) as [[info' v]|] eqn:Ha; [|done].
    destruct (Exported info') eqn:Hexp; [|done].
    destruct (query_outcome p info' v) as [[[eq|] vq]|]; [done| |done].
    destruct (path_outcome p info' vq) as [[[ep|] vp]|]; [done| |done].
    apply elem_of_cons in Hk as [-> | Hk].
    + rewrite list_lookup_fmap, Ha in Hinfo. by injection Hinfo as <-.
    + apply (IH _ _ _ _ Hrun k info Hk).
      by rewrite (insert_twice_keeps_info _ _ _ _ _ _ Ha).
Qed.

(** X4. [Url] returns without error only for a struct all of whose fields
    are exported: on a field that is not, taking the address as an
    interface value panics, tagged or not. *)
Theorem Url_success_needs_exported_fields (p : Parser)
    (fs : list (StructField * value)) (out : target) (st st' : State) :
  Url p (Pointer (VStruct fs)) st = (Ret (None, out), st') ->
  Forall (fun f => Exported f.1 = true) fs.
Proof.
  intros Hrun. unfold Url in Hrun. simpl in Hrun. unfold bind in Hrun.
  destruct (Url_fields p (seq 0 (length fs)) fs st) as [[[e1 fs']|] st1] eqn:Hloop;
    [|done].
  simpl in Hrun. injection Hrun as -> _ _.
  apply Forall_lookup. intros k [info v] Hk.
  apply (Url_fields_exported _ _ _ _ _ _ Hloop k info).
  - apply elem_of_seq. apply lookup_lt_Some in Hk. lia.
  - by rewrite list_lookup_fmap, Hk.
Qed.

Lemma Url_fields_trace p n : forall a fs st fs' st',
  Url_fields p (seq a n) fs st = (Ret (None, fs'), st') ->
  trace st' = trace st ++ struct_lookups (take n (drop a fs)).
Proof.
  induction n as [|n IH]; intros a fs st fs' st' Hrun.
  - injection Hrun as _ <-. unfold struct_lookups. simpl. by rewrite app_nil_r.
  - cbn [seq] in Hrun. rewrite Url_fields_unfold in Hrun.
    destruct (fs !! a) as [[info v]|] eqn:Ha; [|done].
    destruct (Exported info); [|done].
    destruct (query_outcome p info v) as [[[eq|] vq]|]; [done| |done].
    destruct (path_outcome p info vq) as [[[ep|] vp]|]; [done| |done].
    rewrite (IH _ _ _ _ _ Hrun).
    rewrite !drop_insert_lt by lia.
    rewrite (drop_S _ _ _ Ha). unfold struct_lookups. simpl.
    by rewrite <- !app_assoc.
Qed.

(** X5. A successful [Url] makes exactly two calls to the transport for
    each field, in field order: the query mapping, then the path lookup for
    the field's path tag (the empty key when the field has none). *)
Theorem Url_lookups (p : Parser) (fs : list (StructField * value))
    (out : target) (st st' : State) :
  Url p (Pointer (VStruct fs)) st = (Ret (None, out), st') ->
  trace st' = trace st ++ struct_lookups fs
  /\ length (trace st') = (length (trace st) + 2 * length fs)%nat.
Proof.
  intros Hrun. unfold Url in Hrun. simpl in Hrun. unfold bind in Hrun.
  destruct (Url_fields p (seq 0 (length fs)) fs st) as [[[e1 fs']|] st1] eqn:Hloop;
    [|done].
  simpl in Hrun. injection Hrun as -> _ <-.
  pose proof (Url_fields_trace _ _ _ _ _ _ _ Hloop) as Htr.
  rewrite drop_0, take_ge in Htr by done. split; [done|].
  rewrite Htr, length_app. f_equal. unfold struct_lookups.
  clear. induction fs as [|f fs IH]; [done|]. simpl. rewrite IH. lia.
Qed.

(** X6. A field without a query tag is not skipped: its query key is the
    empty string, so when the query mapping has values under the empty key
    (as in [?=5]) a successful [Url] has converted them into that field. *)
Theorem Url_untagged_field_takes_empty_key (p : Parser)
    (fs : list (StructField * value)) (i : nat) (info : StructField)
    (v0 : value) (qv : list string) (out : target) (st st' : State) :
  fs !! i = Some (info, v0) ->
  Tag info !! "query" = None ->
  URL_Query (r p) !! "" = Some qv -> qv <> [] ->
  default "" (PathValues (r p) !! Tag_Get info "path") = "" ->
  Url p (Pointer (VStruct fs)) st = (Ret (None, out), st') ->
  exists wq, convert_values qv (Pointer v0) = Ret (None, wq)
             /\ field_value i out = Some (written v0 wq).
Proof.
  intros Hi Htag Hq Hne Hpv Hrun. unfold Url in Hrun. simpl in Hrun.
  unfold bind in Hrun.
  destruct (Url_fields p (seq 0 (length fs)) fs st) as [[[e1 fs']|] st1] eqn:Hloop;
    [|done].
  simpl in Hrun. injection Hrun as -> <- _.
  destruct (Url_fields_bound _ _ _ _ _ _ i info v0 Hloop) as (vq & vp & Hvq & Hvp & Hfi);
    [apply NoDup_seq | | done |].
  { apply elem_of_seq. apply lookup_lt_Some in Hi. lia. }
  unfold query_outcome, Tag_Get in Hvq. rewrite Htag in Hvq. simpl in Hvq.
  rewrite Hq in Hvq. destruct qv as [|x qv']; [done|].
  unfold path_outcome in Hvp. rewrite Hpv in Hvp. simpl in Hvp.
  injection Hvp as <-.
  destruct (convert_values (x :: qv') (Pointer v0)) as [[e wq]|]; [|done].
  simpl in Hvq. injection Hvq as -> <-.
  exists wq. split; [done|]. simpl. by rewrite Hfi.
Qed.

(** X7. The two steps [Url] runs on a field are the single-key entry
    points with the missing-key error taken out: on a key that is present
    [processQuery] is [Query], on a non-empty path value [processPathValue]
    is [PathValue], and where [Query] and [PathValue] report a missing key
    the steps return no error and leave the field alone. *)
Theorem field_steps_are_single_key_calls (p : Parser) (info : StructField)
    (t : target) (st : State) :
  (forall qv, URL_Query (r p) !! Tag_Get info "query" = Some qv ->
     processQuery p info t st = Query p (Tag_Get info "query") t st)
  /\ (URL_Query (r p) !! Tag_Get info "query" = None ->
      processQuery p info t st = (Ret (None, t), logged EvQuery st)
      /\ Query p (Tag_Get info "query") t st
         = (Ret (Some ErrorQueryMissing, t), logged EvQuery st))
  /\ (default "" (PathValues (r p) !! Tag_Get info "path") <> "" ->
      processPathValue p info t st = PathValue p (Tag_Get info "path") t st)
  /\ (default "" (PathValues (r p) !! Tag_Get info "path") = "" ->
      processPathValue p info t st
      = (Ret (None, t), logged (EvPathValue (Tag_Get info "path")) st)
      /\ PathValue p (Tag_Get info "path") t st
         = (Ret (Some ErrorPathValueMissing, t),
            logged (EvPathValue (Tag_Get info "path")) st)).
Proof.
  split; [|split; [|split]].
  - intros qv Hq. unfold processQuery, Query, Query_of, bind, emit, ret. simpl.
    rewrite Hq. by destruct qv as [|x [|y qv]].
  - intros Hq. split; [|by apply Query_absent].
    unfold processQuery, Query_of, bind, emit, ret. simpl. by rewrite Hq.
  - intros Hpv. rewrite (PathValue_present _ _ _ _ Hpv).
    unfold processPathValue, PathValue_of, bind, emit, ret. simpl.
    by destruct (String.eqb_spec (default "" (PathValues (r p) !! Tag_Get info "path")) "").
  - intros Hpv. split; [|by apply PathValue_empty].
    unfold processPathValue, PathValue_of, bind, emit, ret. simpl. by rewrite Hpv.
Qed.

End StructBinderMore.

(** ** More on the body accessors *)

Section BodyAccessorsMore.
Context `{Collaborators}.

(** X8. With a payload of at least one byte every accessor answers from
    the payload and leaves the request as it found it: the body stream is
    not read and no multipart parse is made.  [Text] returns the payload,
    [Json] and [Xml] what [Unmarshal] makes of it, [File] the empty file
    value and [Files] the empty list. *)
Theorem buffered_mode_leaves_request_alone (p : Parser) (t : target)
    (name : string) (names : list string) (st : State) :
  (0 < len_bytes p)%nat ->
  Text p st = (Ret (string_of_bytes (payload p), None), st)
  /\ Json p t st = call (json_Unmarshal (payload p) t) t st
  /\ (Json p t st).2 = st
  /\ Xml p t st = call (xml_Unmarshal (payload p) t) t st
  /\ (Xml p t st).2 = st
  /\ File p name st = (Ret (Multipart_zero, None), st)
  /\ Files p names st = (Ret ([], None), st).
Proof.
  intros Hlen. unfold Text, Json, Xml, File, Files.
  destruct (Nat.ltb_spec 0 (len_bytes p)); [|lia].
  repeat split.
  - by destruct (json_Unmarshal (payload p) t) as [[e w]|].
  - by destruct (xml_Unmarshal (payload p) t) as [[e w]|].
Qed.

(** With no payload bytes and no body at all, [Text] returns the empty
    string and [Json] and [Xml] return no error, the destination is as it
    was and nothing was read. *)
Lemma nil_body_is_empty (p : Parser) (t : target) (st : State) :
  len_bytes p = 0%nat -> Body st = None ->
  Text p st = (Ret ("", None), st)
  /\ Json p t st = (Ret (None, t), st)
  /\ Xml p t st = (Ret (None, t), st).
Proof.
  intros Hlen Hb. unfold Text, Json, Xml, bind, get_Body.
  rewrite Hlen. simpl. rewrite Hb. by repeat split.
Qed.

(** X9. Reading from a live stream, [Xml] returns the decoder's error as
    it is, end of stream included, while [Json] returns the decoder's
    error except for end of stream, which it turns into success: [Json]
    never returns [io.EOF] from the stream. *)
Theorem stream_decode_errors (p : Parser) (t : target) (b : stream) (st : State) :
  len_bytes p = 0%nat -> Body st = Some b ->
  (forall e w, (xml_Decode b t).1 = Ret (e, w) ->
     (Xml p t st).1 = Ret (e, store t w))
  /\ (forall e w, (json_Decode b t).1 = Ret (e, w) ->
     (Json p t st).1 = Ret (if bool_decide (e = Some io_EOF) then None else e,
                            store t w))
  /\ (Json p t st).1 <> Ret (Some io_EOF, t).
Proof.
  intros Hlen Hb. unfold Xml, Json, Decode_Body, bind, get_Body, emit, set_Body.
  rewrite Hlen. simpl. rewrite Hb. split; [|split].
  - intros e w. destruct (xml_Decode b t) as [[[e' w']|] b']; simpl; [|done].
    by intros [= -> ->].
  - intros e w. destruct (json_Decode b t) as [[[e' w']|] b']; simpl; [|done].
    intros [= -> ->]. by case_bool_decide.
  - destruct (json_Decode b t) as [[[e' w']|] b']; simpl; [|done].
    case_bool_decide; simpl; [done|]. congruence.
Qed.

(** X10. [Text] uses the stream up for [Json]: with no payload bytes and a
    stream that ends without error, [Json] called after [Text] finds the
    end of the stream, returns no error and stores nothing, whatever the
    body was. *)
Theorem Json_after_Text_binds_nothing (p : Parser) (t : target) (b : stream)
    (st : State) :
  len_bytes p = 0%nat -> Body st = Some b -> fault b = None ->
  (Text p st).1 = Ret (string_of_bytes (pending b), None)
  /\ (Json p t (Text p st).2).1 = Ret (None, t).
Proof.
  intros Hlen Hb Hf. rewrite (Text_live _ _ _ Hlen Hb). simpl.
  split; [by rewrite Hf|].
  unfold Json, Decode_Body, bind, get_Body, emit, set_Body.
  rewrite Hlen. simpl. unfold drained. rewrite Hf, json_Decode_EOF. simpl.
  by rewrite store_None.
Qed.

End BodyAccessorsMore.

(** ** More on multipart files *)

Section MultipartsMore.
Context `{Collaborators}.

(** X12. An error never comes with part of the result: when [Files]
    returns an error its list is empty, and when [File] returns an error
    its file value is the empty one, although [createMultiparts] hands back
    the parts read before the failure. *)
Theorem no_parts_with_an_error (p : Parser) (name : string) (names : list string)
    (st : State) :
  (forall parts e st', Files p names st = (Ret (parts, Some e), st') -> parts = [])
  /\ (forall part e st', File p name st = (Ret (part, Some e), st') ->
        part = Multipart_zero).
Proof.
  split.
  - intros parts e st'. unfold Files, bind.
    destruct (0 <? len_bytes p)%nat; [done|].
    destruct (parseMultipartForm p st) as [[[e1|]|] st1]; [by intros [= <- _ _]| |done].
    destruct (createMultiparts p names st1) as [[[ps [e2|]]|] st2]; simpl;
      [by intros [= <- _ _]|done|done].
  - intros part e st'. unfold File, bind.
    destruct (0 <? len_bytes p)%nat; [done|].
    destruct (parseMultipartForm p st) as [[[e1|]|] st1]; [by intros [= <- _ _]| |done].
    destruct (createMultiparts p [name] st1) as [[[ps [e2|]]|] st2]; simpl;
      [by intros [= <- _ _]| |done].
    by destruct ps.
Qed.

Lemma read_files_success name files acc res :
  read_files name files acc = (res, None) ->
  res = acc ++ omap (part_of name) files
  /\ Forall (fun file => exists f, Open file = inr f /\ fault f = None) files.
Proof.
  revert acc. induction files as [|file files IH]; intros acc; simpl.
  - intros [= <-]. by rewrite app_nil_r.
  - unfold part_of at 1. destruct (Open file) as [e|f] eqn:Hopen; [done|]. simpl.
    destruct (fault f) as [e|] eqn:Hfault; [done|].
    intros Hrest. destruct (IH _ Hrest) as [-> Hall]. split.
    + by rewrite <- app_assoc.
    + constructor; [by exists f | done].
Qed.

Lemma range_File_success fn (entries : list (string * list FileHeader)) acc res :
  range_File fn entries acc = (res, None) ->
  res = acc ++ parts_of (filter (fun e => selects fn e.1 = true) entries)
  /\ readable (filter (fun e => selects fn e.1 = true) entries).
Proof.
  revert acc. induction entries as [|[name files] entries IH]; intros acc.
  - simpl. intros [= <-]. split; [by rewrite app_nil_r | constructor].
  - rewrite filter_cons. cbn [range_File fst].
    replace ((0 <? String.length fn)%nat && negb (String.eqb name fn))
      with (negb (selects fn name))
      by (unfold selects; by rewrite negb_involutive).
    destruct (selects fn name) eqn:Hsel; simpl.
    2:{ intros Hrest. by apply IH. }
    + destruct (read_files name files acc) as [res1 [e|]] eqn:Hfiles; [done|].
      intros Hrest. destruct (read_files_success _ _ _ _ Hfiles) as [-> Hr1].
      destruct (IH _ Hrest) as [-> Hr2]. split.
      * unfold parts_of. cbn [map concat fst snd]. by rewrite <- app_assoc.
      * by constructor.
Qed.

(** X13. When [Files] returns a list and no error (no payload bytes), the
    list is exactly the files of the selected fields of the decoded form,
    field by field in the order of the form and file by file in upload
    order, every one of them opened and read in full; each part carries the
    field name, the file name, the sniffed content type of its bytes and
    the suffix of its file name. *)
Theorem Files_success_exact (p : Parser) (names : list string)
    (entries : list (string * list FileHeader)) (parts : list Multipart)
    (st st' : State) :
  len_bytes p = 0%nat -> decoded p st = Some entries ->
  Files p names st = (Ret (parts, None), st') ->
  let fn := match names with [] => "" | n :: _ => n end in
  parts = parts_of (filter (fun e => selects fn e.1 = true) entries)
  /\ readable (filter (fun e => selects fn e.1 = true) entries)
  /\ Forall (fun m => selects fn (Key m) = true
                      /\ Type_ m = DetectContentType (Data m)
                      /\ Suffix m = GetFilenameSuffix (PartName m)) parts.
Proof.
  intros Hlen Hd Hrun fn. unfold Files, bind in Hrun. rewrite Hlen in Hrun.
  simpl in Hrun.
  destruct (IsRequestMultipart (r p)) eqn:Hm;
    [|by rewrite (parseMultipartForm_not_multipart _ _ Hm) in Hrun].
  rewrite (parseMultipartForm_decoded _ _ _ Hm Hd) in Hrun.
  rewrite createMultiparts_parsed in Hrun. fold fn in Hrun.
  destruct (range_File fn entries []) as [res [e|]] eqn:Hrange; [done|].
  simpl in Hrun. injection Hrun as <- _.
  destruct (range_File_success _ _ _ _ Hrange) as [-> Hread].
  split; [done|]. split; [done|]. simpl.
  unfold parts_of. apply Forall_concat, Forall_fmap, Forall_forall.
  intros [name files] Hin. apply list_elem_of_filter in Hin as [Hsel _].
  apply Forall_forall. intros m Hm'. apply list_elem_of_omap in Hm' as (file & _ & Hpart).
  unfold part_of in Hpart. destruct (Open file) as [|f]; [done|].
  destruct (fault f); [done|]. by injection Hpart as <-.
Qed.

Lemma read_files_failure name files acc res e :
  read_files name files acc = (res, Some e) ->
  exists file e', file ∈ files
    /\ ((Open file = inl e' /\ e = errors_Join ErrorOpenFile e')
        \/ (exists f, Open file = inr f /\ fault f = Some e'
                      /\ e = errors_Join ErrorReadData e')).
Proof.
  revert acc. induction files as [|file files IH]; intros acc; simpl; [done|].
  destruct (Open file) as [e1|f] eqn:Hopen.
  - intros [= _ <-]. exists file, e1. split; [by left|]. by left.
  - simpl. destruct (fault f) as [e1|] eqn:Hfault.
    + intros [= _ <-]. exists file, e1. split; [by left|]. right. by exists f.
    + intros Hrest. destruct (IH _ Hrest) as (file' & e' & Hin & Hcase).
      exists file', e'. split; [by right|done].
Qed.

Lemma range_File_failure fn entries acc res e :
  range_File fn entries acc = (res, Some e) ->
  exists name files file e',
    (name, files) ∈ entries /\ file ∈ files /\ selects fn name = true
    /\ ((Open file = inl e' /\ e = errors_Join ErrorOpenFile e')
        \/ (exists f, Open file = inr f /\ fault f = Some e'
                      /\ e = errors_Join ErrorReadData e')).
Proof.
  revert acc. induction entries as [|[name files] entries IH]; intros acc; [done|].
  cbn [range_File].
  destruct ((0 <? String.length fn)%nat && negb (String.eqb name fn)) eqn:Hskip.
  - intros Hrest. destruct (IH _ Hrest) as (n & fs & file & e' & Hin & Hrest').
    exists n, fs, file, e'. split; [by right|done].
  - destruct (read_files name files acc) as [res1 [e1|]] eqn:Hfiles.
    + intros [= _ <-].
      destruct (read_files_failure _ _ _ _ _ Hfiles) as (file & e' & Hin & Hcase).
      exists name, files, file, e'. split; [by left|]. split; [done|].
      split; [|done]. unfold selects. by rewrite Hskip.
    + intros Hrest. destruct (IH _ Hrest) as (n & fs & file & e' & Hin & Hrest').
      exists n, fs, file, e'. split; [by right|done].
Qed.

(** X14. Where an error of [Files] comes from: the request is not
    multipart ([ErrorInvalidMultipart]); or the transport failed to decode
    the form (its error, as it is); or a file of a selected field failed to
    open or to read, and the error is [ErrorOpenFile], respectively
    [ErrorReadData], joined with the cause. *)
Theorem Files_error_origin (p : Parser) (names : list string)
    (parts : list Multipart) (e : error) (st st' : State) :
  Files p names st = (Ret (parts, Some e), st') ->
  (IsRequestMultipart (r p) = false /\ e = ErrorInvalidMultipart)
  \/ (MultipartForm st = None
      /\ ReadForm (r p) (shl64 (limit p) 20) (Body st) = inl e)
  \/ exists entries name files file e',
       decoded p st = Some entries
       /\ (name, files) ∈ entries /\ file ∈ files
       /\ selects (match names with [] => "" | n :: _ => n end) name = true
       /\ ((Open file = inl e' /\ e = errors_Join ErrorOpenFile e')
           \/ (exists f, Open file = inr f /\ fault f = Some e'
                         /\ e = errors_Join ErrorReadData e')).
Proof.
  intros Hrun. unfold Files, bind in Hrun.
  destruct (0 <? len_bytes p)%nat; [done|].
  destruct (IsRequestMultipart (r p)) eqn:Hm.
  2:{ rewrite (parseMultipartForm_not_multipart _ _ Hm) in Hrun.
      injection Hrun as _ <- _. by left. }
  destruct (decoded p st) as [entries|] eqn:Hd.
  - rewrite (parseMultipartForm_decoded _ _ _ Hm Hd) in Hrun.
    rewrite createMultiparts_parsed in Hrun.
    destruct (range_File _ entries []) as [res [e1|]] eqn:Hrange; [|done].
    simpl in Hrun. injection Hrun as _ <- _.
    destruct (range_File_failure _ _ _ _ _ Hrange)
      as (name & files & file & e' & Hin & Hfile & Hsel & Hcase).
    right. right. by exists entries, name, files, file, e'.
  - right. left.
    destruct (parseMultipartForm_failed _ _ Hm Hd) as (e1 & st1 & Hfail & Hread & _).
    rewrite Hfail in Hrun. injection Hrun as _ <- _. split; [|done].
    unfold decoded in Hd. by destruct (MultipartForm st).
Qed.

Lemma range_File_selected fn (entries : list (string * list FileHeader)) acc :
  readable (filter (fun e => selects fn e.1 = true) entries) ->
  range_File fn entries acc
  = (acc ++ parts_of (filter (fun e => selects fn e.1 = true) entries), None).
Proof.
  revert acc. induction entries as [|[name files] entries IH]; intros acc.
  - simpl. by rewrite app_nil_r.
  - rewrite filter_cons. cbn [range_File fst].
    replace ((0 <? String.length fn)%nat && negb (String.eqb name fn))
      with (negb (selects fn name))
      by (unfold selects; by rewrite negb_involutive).
    destruct (selects fn name) eqn:Hsel; simpl; [|apply IH].
    intros Hr. apply Forall_cons in Hr as [Hfiles Hr].
    rewrite (read_files_readable _ _ _ Hfiles). rewrite (IH _ Hr).
    unfold parts_of. cbn [map concat fst snd]. by rewrite <- app_assoc.
Qed.

Lemma parts_of_Permutation (l1 l2 : list (string * list FileHeader)) :
  l1 ≡ₚ l2 -> parts_of l1 ≡ₚ parts_of l2.
Proof.
  unfold parts_of. induction 1 as [|e l1 l2 _ IH|e1 e2 l|l1 l2 l3 _ IH1 _ IH2]; simpl.
  - done.
  - by rewrite IH.
  - rewrite !app_assoc. f_equiv. apply Permutation_app_comm.
  - by etrans.
Qed.

(** A lookup by a name that is not the empty string reads the files of
    the one field of that name, wherever the range finds it. *)
Lemma range_File_by_name fn (entries : list (string * list FileHeader)) acc :
  (0 < String.length fn)%nat -> NoDup entries.*1 ->
  range_File fn entries acc
  = match (list_to_map entries : gmap string (list FileHeader)) !! fn with
    | Some files => read_files fn files acc
    | None => (acc, None)
    end.
Proof.
  intros Hfn. revert acc. induction entries as [|[name files] entries IH];
    intros acc Hnd; [done|].
  rewrite fmap_cons in Hnd. apply NoDup_cons in Hnd as [Hname Hnd].
  cbn [fst] in Hname. rewrite list_to_map_cons. cbn [range_File].
  destruct (Nat.ltb_spec 0 (String.length fn)); [|lia].
  destruct (String.eqb_spec name fn) as [-> | Hne]; cbn [andb negb].
  - rewrite lookup_insert_eq.
    destruct (read_files fn files acc) as [res [e|]]; [done|].
    rewrite (IH _ Hnd).
    by rewrite (not_elem_of_list_to_map_1 _ _ Hname).
  - rewrite lookup_insert_ne by done. by apply IH.
Qed.

Lemma range_File_by_name_Permutation fn (l1 l2 : list (string * list FileHeader)) acc :
  (0 < String.length fn)%nat -> NoDup l1.*1 -> l1 ≡ₚ l2 ->
  range_File fn l1 acc = range_File fn l2 acc.
Proof.
  intros Hfn Hnd Hperm.
  assert (Hnd2 : NoDup l2.*1) by (by rewrite <- Hperm).
  rewrite !range_File_by_name by done.
  by rewrite (list_to_map_proper l1 l2 Hnd Hperm).
Qed.

(** X11. [File(name)], for a name that is not the empty string, is
    [Files(name)] cut down to its first part, whatever order the range of
    either call visits the form in: the same error, and the first part of
    the list or the empty file value when the list is empty. *)
Theorem File_is_first_of_Files (p : Parser) (name : string) (st1 st2 : State)
    (entries1 entries2 : list (string * list FileHeader)) :
  name <> "" ->
  decoded p st1 = Some entries1 -> decoded p st2 = Some entries2 ->
  entries1 ≡ₚ entries2 -> NoDup entries1.*1 ->
  (File p name st1).1 =
  match (Files p [name] st2).1 with
  | Ret (parts, err) => Ret (default Multipart_zero (head parts), err)
  | Panic => Panic
  end.
Proof.
  intros Hname Hd1 Hd2 Hperm Hnd. unfold File, Files, bind.
  destruct (0 <? len_bytes p)%nat; [done|].
  destruct (IsRequestMultipart (r p)) eqn:Hm.
  2:{ by rewrite !(parseMultipartForm_not_multipart _ _ Hm). }
  rewrite (parseMultipartForm_decoded _ _ _ Hm Hd1).
  rewrite (parseMultipartForm_decoded _ _ _ Hm Hd2).
  rewrite !createMultiparts_parsed.
  assert (Hlen : (0 < String.length name)%nat) by (destruct name; [done|simpl; lia]).
  rewrite (range_File_by_name_Permutation name entries1 entries2 [] Hlen Hnd Hperm).
  by destruct (range_File name entries2 []) as [[|first rest] [e|]].
Qed.

(** X15. A list that [Files] returned without error comes back from a
    later call with the same names, which finds the form in the request
    and does not decode again: the same parts, in the order in which the
    later range visits the fields, and the very same list when a name that
    is not the empty string was given. *)
Theorem Files_repeatable (p : Parser) (names : list string)
    (parts : list Multipart) (entries : list (string * list FileHeader))
    (st st' : State) :
  len_bytes p = 0%nat -> decoded p st = Some entries ->
  Files p names st = (Ret (parts, None), st') ->
  forall st2 entries2,
    MultipartForm st2 = Some entries2 -> entries2 ≡ₚ entries ->
    exists parts2,
      Files p names st2
      = (Ret (parts2, None),
         {| Body := Body st2; MultipartForm := Some entries2;
            trace := trace st2 ++ [EvParseMultipartForm (shl64 (limit p) 20)] |})
      /\ parts2 ≡ₚ parts
      /\ (NoDup entries.*1 ->
          (0 < String.length (match names with [] => "" | n :: _ => n end))%nat ->
          parts2 = parts).
Proof.
  intros Hlen Hd Hrun st2 entries2 Hform Hperm.
  unfold Files, bind in Hrun. rewrite Hlen in Hrun. simpl in Hrun.
  destruct (IsRequestMultipart (r p)) eqn:Hm;
    [|by rewrite (parseMultipartForm_not_multipart _ _ Hm) in Hrun].
  rewrite (parseMultipartForm_decoded _ _ _ Hm Hd) in Hrun.
  rewrite createMultiparts_parsed in Hrun.
  set (fn := match names with [] => "" | n :: _ => n end) in *.
  destruct (range_File fn entries []) as [res [e|]] eqn:Hrange; [done|].
  simpl in Hrun. injection Hrun as <- _.
  destruct (range_File_success _ _ _ _ Hrange) as [Hres Hread]. simpl in Hres.
  assert (Hd2 : decoded p st2 = Some entries2) by (unfold decoded; by rewrite Hform).
  assert (Hfilter : filter (fun e => selects fn e.1 = true) entries2
                    ≡ₚ filter (fun e => selects fn e.1 = true) entries)
    by (by rewrite Hperm).
  assert (Hread2 : readable (filter (fun e => selects fn e.1 = true) entries2))
    by (unfold readable; by rewrite Hfilter).
  exists (parts_of (filter (fun e => selects fn e.1 = true) entries2)).
  split; [|split].
  - unfold Files, bind. rewrite Hlen. simpl.
    rewrite (parseMultipartForm_decoded _ _ _ Hm Hd2).
    rewrite createMultiparts_parsed. fold fn.
    rewrite (range_File_selected _ _ _ Hread2). simpl.
    unfold parsed, Body_after_parse. by rewrite Hform.
  - rewrite Hres. by apply parts_of_Permutation.
  - intros Hnd Hfn.
    pose proof (range_File_by_name_Permutation fn entries entries2 [] Hfn Hnd
                  (symmetry Hperm)) as Heq.
    rewrite Hrange, (range_File_selected _ _ _ Hread2) in Heq.
    by injection Heq as ->.
Qed.

(** X16. The byte limit handed to the decode is always a value of [int64],
    and it is the limit times [2^20] exactly when the limit lies in
    [-2^43, 2^43): outside that range the shift has wrapped. *)
Theorem byte_limit_exact_iff (L : Z) :
  is_int64 L ->
  is_int64 (shl64 L 20)
  /\ (shl64 L 20 = L * 2 ^ 20 <-> - 2 ^ 43 <= L < 2 ^ 43).
Proof.
  intros HL. unfold is_int64 in *.
  assert (Hrange : - 2 ^ 63 <= shl64 L 20 < 2 ^ 63).
  { unfold shl64, int64.
    pose proof (Z.mod_pos_bound (Z.shiftl L 20 + 2 ^ 63) (2 ^ 64) ltac:(lia)). lia. }
  split; [exact Hrange|]. split; [|apply shl64_exact].
  intros Heq. rewrite Heq in Hrange.
  change (2 ^ 43) with 8796093022208. change (2 ^ 20) with 1048576 in Hrange.
  change (2 ^ 63) with 9223372036854775808 in Hrange. lia.
Qed.

End MultipartsMore.

(** ** Every field of the struct *)

Section EveryField.
Context `{Collaborators}.

(** X17. A successful [Url] has bound every field from that field's own
    sources and from nothing else: the field holds what its path step left,
    run on what its query step left, run on the value it had, and both
    steps returned no error. *)
Theorem Url_binds_each_field (p : Parser) (fs : list (StructField * value))
    (out : target) (st st' : State) :
  Url p (Pointer (VStruct fs)) st = (Ret (None, out), st') ->
  forall i info v0, fs !! i = Some (info, v0) ->
  exists vq vp,
    query_outcome p info v0 = Ret (None, vq)
    /\ path_outcome p info vq = Ret (None, vp)
    /\ field_value i out = Some vp.
Proof.
  intros Hrun i info v0 Hi. unfold Url in Hrun. simpl in Hrun.
  unfold bind in Hrun.
  destruct (Url_fields p (seq 0 (length fs)) fs st) as [[[e1 fs']|] st1] eqn:Hloop;
    [|done].
  simpl in Hrun. injection Hrun as -> <- _.
  destruct (Url_fields_bound _ _ _ _ _ _ i info v0 Hloop) as (vq & vp & Hvq & Hvp & Hfi);
    [apply NoDup_seq | | done |].
  { apply elem_of_seq. apply lookup_lt_Some in Hi. lia. }
  exists vq, vp. split; [done|]. split; [done|]. simpl. by rewrite Hfi.
Qed.

Lemma Earlier_set_field_spec k s (fs : list (StructField * value)) info v st :
  fs !! k = Some (info, v) ->
  Earlier.set_field k s fs st
  = match SetValueToReflected (Kind_of v) v s with
    | Ret v' => (Ret (<[k := (info, v')]> fs), st)
    | Panic => (Panic, st)
    end.
Proof.
  intros Hk. unfold Earlier.set_field, bind, index, lift, ret. rewrite Hk. simpl.
  by destruct (SetValueToReflected (Kind_of v) v s).
Qed.

Lemma Earlier_Url_fields_turn p k rest fs st fs' st' :
  Earlier.Url_fields p (k :: rest) fs st = (Ret fs', st') ->
  exists info v vq vp st2,
    fs !! k = Some (info, v)
    /\ Earlier_query_outcome p info v = Ret vq
    /\ Earlier_path_outcome p info vq = Ret vp
    /\ Earlier.Url_fields p rest (<[k := (info, vp)]> (<[k := (info, vq)]> fs)) st2
       = (Ret fs', st').
Proof.
  cbn [Earlier.Url_fields]. unfold bind at 1. unfold index.
  destruct (fs !! k) as [[info v]|] eqn:Hk; [|done]. cbn [ret fst snd].
  assert (Hlt : (k < length fs)%nat) by (by apply lookup_lt_Some in Hk).
  unfold bind at 1.
  assert (Hq : exists stq,
    (if (0 <? String.length (Tag_Get info "query"))%nat
     then bind (Query_of (r p)) (fun q =>
            if Values_Has q (Tag_Get info "query")
            then bind (Query_of (r p)) (fun q =>
                   Earlier.set_field k (Values_Get q (Tag_Get info "query")) fs)
            else ret fs)
     else ret fs) st
    = match Earlier_query_outcome p info v with
      | Ret vq => (Ret (<[k := (info, vq)]> fs), stq)
      | Panic => (Panic, stq)
      end).
  { unfold Earlier_query_outcome, Query_of, bind, emit, ret. simpl.
    destruct (0 <? String.length (Tag_Get info "query"))%nat; simpl.
    - destruct (Values_Has (URL_Query (r p)) (Tag_Get info "query")); simpl.
      + eexists. apply (Earlier_set_field_spec _ _ _ _ _ _ Hk).
      + eexists. by rewrite list_insert_id.
    - eexists. by rewrite list_insert_id. }
  destruct Hq as [stq ->].
  destruct (Earlier_query_outcome p info v) as [vq|] eqn:Hvq; [|done].
  unfold bind at 1, PathValue_of at 1, bind at 1, emit, ret. cbn [fst snd].
  unfold bind at 1.
  assert (Hk' : <[k := (info, vq)]> fs !! k = Some (info, vq))
    by (by apply list_lookup_insert_eq).
  assert (Hp : exists stp,
    (if (0 <? String.length (Tag_Get info "path"))%nat
        && (0 <? String.length (default "" (PathValues (r p) !! Tag_Get info "path")))%nat
     then Earlier.set_field k (default "" (PathValues (r p) !! Tag_Get info "path"))
            (<[k := (info, vq)]> fs)
     else (fun st => (Ret (<[k := (info, vq)]> fs), st)))
      (logged (EvPathValue (Tag_Get info "path")) stq)
    = match Earlier_path_outcome p info vq with
      | Ret vp => (Ret (<[k := (info, vp)]> (<[k := (info, vq)]> fs)), stp)
      | Panic => (Panic, stp)
      end).
  { unfold Earlier_path_outcome. simpl.
    destruct ((0 <? String.length (Tag_Get info "path"))%nat
              && (0 <? String.length (default "" (PathValues (r p) !! Tag_Get info "path")))%nat).
    - eexists. apply (Earlier_set_field_spec _ _ _ _ _ _ Hk').
    - eexists. by rewrite list_insert_insert_eq. }
  destruct Hp as [stp ->].
  destruct (Earlier_path_outcome p info vq) as [vp|] eqn:Hvp; [|done].
  intros Hrest. by exists info, v, vq, vp, stp.
Qed.

Lemma Earlier_Url_fields_elsewhere p idx fs st fs' st' j :
  Earlier.Url_fields p idx fs st = (Ret fs', st') ->
  j ∉ idx -> fs' !! j = fs !! j.
Proof.
  revert fs st. induction idx as [|k rest IH]; intros fs st Hrun Hj.
  - by injection Hrun as ->.
  - apply Earlier_Url_fields_turn in Hrun
      as (info & v & vq & vp & st2 & _ & _ & _ & Hrest).
    apply not_elem_of_cons in Hj as [Hjk Hj].
    rewrite (IH _ _ Hrest Hj). by rewrite !list_lookup_insert_ne.
Qed.

Lemma Earlier_Url_fields_bound p idx fs st fs' st' i info v0 :
  Earlier.Url_fields p idx fs st = (Ret fs', st') ->
  NoDup idx -> i ∈ idx -> fs !! i = Some (info, v0) ->
  exists vq vp,
    Earlier_query_outcome p info v0 = Ret vq
    /\ Earlier_path_outcome p info vq = Ret vp
    /\ fs' !! i = Some (info, vp).
Proof.
  revert fs st. induction idx as [|k rest IH]; intros fs st Hrun Hnd Hi Hfs.
  - by apply elem_of_nil in Hi.
  - apply NoDup_cons in Hnd as [Hk Hnd].
    apply Earlier_Url_fields_turn in Hrun
      as (info' & v & vq & vp & st2 & Hk' & Hq & Hp & Hrest).
    destruct (decide (i = k)) as [-> | Hne].
    + rewrite Hfs in Hk'. injection Hk' as <- <-.
      exists vq, vp. split; [done|]. split; [done|].
      rewrite (Earlier_Url_fields_elsewhere _ _ _ _ _ _ _ Hrest Hk).
      apply list_lookup_insert_eq. rewrite length_insert.
      by apply lookup_lt_Some in Hfs.
    + apply (IH _ _ Hrest Hnd).
      * apply elem_of_cons in Hi as [? | ?]; done.
      * by rewrite !list_lookup_insert_ne.
Qed.

(** X18. The earlier [Url] handed a pointer to a struct never returns an
    error: what [util.SetValueToReflected] makes of a value is not looked
    at.  When it returns, every field holds what the path step left, run on
    what the query step left: the path value is stored after the query
    value there too. *)
Theorem Earlier_Url_never_fails (p : Parser) (fs : list (StructField * value))
    (e : option error) (out : target) (st st' : State) :
  Earlier.Url p (Pointer (VStruct fs)) st = (Ret (e, out), st') ->
  e = None
  /\ forall i info v0, fs !! i = Some (info, v0) ->
     exists vq vp,
       Earlier_query_outcome p info v0 = Ret vq
       /\ Earlier_path_outcome p info vq = Ret vp
       /\ field_value i out = Some vp.
Proof.
  intros Hrun. unfold Earlier.Url in Hrun. simpl in Hrun. unfold bind in Hrun.
  destruct (Earlier.Url_fields p (seq 0 (length fs)) fs st) as [[fs'|] st1] eqn:Hloop;
    [|done].
  injection Hrun as <- <- _. split; [done|].
  intros i info v0 Hi.
  destruct (Earlier_Url_fields_bound _ _ _ _ _ _ i info v0 Hloop)
    as (vq & vp & Hvq & Hvp & Hfi); [apply NoDup_seq | | done |].
  { apply elem_of_seq. apply lookup_lt_Some in Hi. lia. }
  exists vq, vp. split; [done|]. split; [done|]. simpl. by rewrite Hfi.
Qed.

(** X19. In the earlier revision a field without tags is never written,
    whatever the request holds, the empty query key included: the steps are
    guarded by the length of the tag. *)
Theorem Earlier_Url_skips_untagged_field (p : Parser)
    (fs : list (StructField * value)) (i : nat) (info : StructField) (v0 : value)
    (e : option error) (out : target) (st st' : State) :
  fs !! i = Some (info, v0) ->
  Tag info !! "query" = None -> Tag info !! "path" = None ->
  Earlier.Url p (Pointer (VStruct fs)) st = (Ret (e, out), st') ->
  field_value i out = Some v0.
Proof.
  intros Hi Hq Hp Hrun. unfold Earlier.Url in Hrun. simpl in Hrun.
  unfold bind in Hrun.
  destruct (Earlier.Url_fields p (seq 0 (length fs)) fs st) as [[fs'|] st1] eqn:Hloop;
    [|done].
  injection Hrun as _ <- _.
  destruct (Earlier_Url_fields_bound _ _ _ _ _ _ i info v0 Hloop)
    as (vq & vp & Hvq & Hvp & Hfi); [apply NoDup_seq | | done |].
  { apply elem_of_seq. apply lookup_lt_Some in Hi. lia. }
  simpl. rewrite Hfi. simpl.
  unfold Earlier_query_outcome, Tag_Get in Hvq. rewrite Hq in Hvq.
  simpl in Hvq. injection Hvq as <-.
  unfold Earlier_path_outcome, Tag_Get in Hvp. rewrite Hp in Hvp.
  simpl in Hvp. by injection Hvp as <-.
Qed.

(** X20. The earlier [QueryParam] and [PathValue], handed a pointer and a
    key that is there, return no error whatever the string is: they store
    what [util.SetValueToReflected] makes of it and do not look at the
    outcome.  [QueryParam] takes the first value of the key only. *)
Theorem Earlier_single_key_stores_unchecked (p : Parser) (key : string)
    (v : value) (st : State) :
  (forall qv, URL_Query (r p) !! key = Some qv ->
     Earlier.QueryParam p key (Pointer v) st
     = match SetValueToReflected (Kind_of v) v (default "" (head qv)) with
       | Ret v' => (Ret (None, Pointer v'), logged EvQuery (logged EvQuery st))
       | Panic => (Panic, logged EvQuery (logged EvQuery st))
       end)
  /\ (default "" (PathValues (r p) !! key) <> "" ->
      Earlier.PathValue p key (Pointer v) st
      = match SetValueToReflected (Kind_of v) v
                (default "" (PathValues (r p) !! key)) with
        | Ret v' => (Ret (None, Pointer v'), logged (EvPathValue key) st)
        | Panic => (Panic, logged (EvPathValue key) st)
        end).
Proof.
  split; [intros qv Hq; by apply Earlier_QueryParam_present|].
  intros Hpv. unfold Earlier.PathValue, Earlier.set_reflected, PathValue_of,
    bind, emit, ret, lift. simpl.
  destruct (String.length _ =? 0)%nat eqn:E; [by apply length_zero_empty in E|].
  by destruct (SetValueToReflected _ _ _).
Qed.

End EveryField.

Lemma pointer_check_order_facts `{Collaborators} (p : Parser) (v : value) (st : State) :
  Url p (Plain v) st = (Ret (Some util_ErrorPointerTarget, Plain v), st)
  /\ Earlier.Url p (Plain v) st
     = (Ret (Some (errors_New "target must be a pointer"), Plain v), st).
Proof.
  assert (Hk : bool_decide (Kind_of v <> KPtr) = true)
    by (apply bool_decide_eq_true; by destruct v).
  split; [unfold Url | unfold Earlier.Url]; simpl; by rewrite Hk.
Qed.

(** ** The panicking entry points *)

Section MustEntryPoints.
Context `{Collaborators}.
Import Must.


End MustEntryPoints.

(** ** The properties at work on the sample requests *)

Import Reference Sample.

Lemma missing_key_errors_witness :
  (URL_Query shop !! "page" = None
   /\ (PathValues shop !! "page" = None \/ PathValues shop !! "page" = Some ""))
  /\ Query (New shop None 1) "page" (Pointer (VInt 5)) (fresh None)
     = (Ret (Some ErrorQueryMissing, Pointer (VInt 5)), logged EvQuery (fresh None))
  /\ PathValue (New shop None 1) "page" (Pointer (VInt 5)) (fresh None)
     = (Ret (Some ErrorPathValueMissing, Pointer (VInt 5)),
        logged (EvPathValue "page") (fresh None)).
Proof.
  assert (Hq : URL_Query shop !! "page" = None) by (vm_compute; reflexivity).
  assert (Hp : PathValues shop !! "page" = None \/ PathValues shop !! "page" = Some "")
    by (left; vm_compute; reflexivity).
  split; [by split|].
  destruct (missing_key_errors (New shop None 1) "page" (Pointer (VInt 5)) (fresh None))
    as [HQ HP].
  split; [exact (HQ Hq) | exact (HP Hp)].
Defined.

Lemma present_key_conversion_witness :
  (URL_Query shop !! "id" = Some ["3"]
   /\ URL_Query shop !! "tags" = Some ["a"; "b"]
   /\ URL_Query shop !! "flag" = Some [])
  /\ Query (New shop None 1) "id" (Pointer (VInt 0)) start
     = (Ret (None, Pointer (VInt 3)), looked_up [EvQuery])
  /\ Query (New shop None 1) "tags" (Pointer (VSlice KString [])) start
     = (Ret (None, Pointer (VSlice KString [VString "a"; VString "b"])),
        looked_up [EvQuery])
  /\ Query (New shop None 1) "flag" (Pointer (VInt 5)) start
     = (Ret (None, Pointer (VInt 5)), looked_up [EvQuery]).
Proof.
  assert (H1 : URL_Query shop !! "id" = Some ["3"]) by (vm_compute; reflexivity).
  assert (Hn : URL_Query shop !! "tags" = Some ["a"; "b"]) by (vm_compute; reflexivity).
  assert (H0 : URL_Query shop !! "flag" = Some []) by (vm_compute; reflexivity).
  split; [done|].
  destruct (present_key_conversion (New shop None 1) "id" ["3"]
              (Pointer (VInt 0)) start H1) as (Hone & _ & _).
  destruct (present_key_conversion (New shop None 1) "tags" ["a"; "b"]
              (Pointer (VSlice KString [])) start Hn) as (_ & Hmany & _).
  destruct (present_key_conversion (New shop None 1) "flag" []
              (Pointer (VInt 5)) start H0) as (_ & _ & Hnone).
  split; [rewrite (Hone "3" eq_refl); reflexivity|].
  split; [rewrite Hmany by (simpl; lia); reflexivity|].
  exact (Hnone eq_refl).
Defined.

Lemma pointer_check_order_witness :
  (URL_Query shop !! "page" = None
   /\ default "" (PathValues shop !! "page") = ""
   /\ URL_Query shop !! "flag" = Some []
   /\ URL_Query shop !! "id" = Some ["3"]
   /\ default "" (PathValues shop !! "id") <> "")
  /\ Query (New shop None 1) "page" (Plain (VInt 0)) (fresh None)
     = (Ret (Some ErrorQueryMissing, Plain (VInt 0)), logged EvQuery (fresh None))
  /\ PathValue (New shop None 1) "page" (Plain (VInt 0)) (fresh None)
     = (Ret (Some ErrorPathValueMissing, Plain (VInt 0)),
        logged (EvPathValue "page") (fresh None))
  /\ Query (New shop None 1) "flag" (Plain (VInt 0)) (fresh None)
     = (Ret (None, Plain (VInt 0)), logged EvQuery (fresh None))
  /\ Query (New shop None 1) "id" (Plain (VInt 0)) (fresh None)
     = (Ret (Some util_ErrorPointerTarget, Plain (VInt 0)), logged EvQuery (fresh None))
  /\ PathValue (New shop None 1) "id" (Plain (VInt 0)) (fresh None)
     = (Ret (Some util_ErrorPointerTarget, Plain (VInt 0)),
        logged (EvPathValue "id") (fresh None)).
Proof.
  assert (H1 : URL_Query shop !! "page" = None) by (vm_compute; reflexivity).
  assert (H2 : default "" (PathValues shop !! "page") = "") by (vm_compute; reflexivity).
  assert (H3 : URL_Query shop !! "flag" = Some []) by (vm_compute; reflexivity).
  assert (H4 : URL_Query shop !! "id" = Some ["3"]) by (vm_compute; reflexivity).
  assert (H5 : default "" (PathValues shop !! "id") <> "") by (vm_compute; discriminate).
  split; [done|].
  destruct (pointer_check_order (New shop None 1) "page" (VInt 0) (fresh None))
    as (_ & Habsent & _ & _ & Hempty & _).
  destruct (pointer_check_order (New shop None 1) "flag" (VInt 0) (fresh None))
    as (_ & _ & Hnone & _).
  destruct (pointer_check_order (New shop None 1) "id" (VInt 0) (fresh None))
    as (_ & _ & _ & Hone & _ & Hpath & _).
  split; [exact (Habsent H1)|]. split; [exact (Hempty H2)|].
  split; [exact (Hnone H3)|].
  split; [rewrite (Hone ["3"] H4) by discriminate; reflexivity|].
  rewrite (Hpath H5). reflexivity.
Defined.

(** C1, as stated, fails on [parser.go]: [Query] handed a plain [int] and
    a key that is not in the query string has looked the key up and answers
    [ErrorQueryMissing]. *)
Lemma Query_looks_up_before_checking :
  Query (New shop None 1) "page" (Plain (VInt 0)) (fresh None)
  = (Ret (Some ErrorQueryMissing, Plain (VInt 0)),
     {| Body := None; MultipartForm := None; trace := [EvQuery] |})
  /\ ~ rejects_before_lookup (Query (New shop None 1) "page" (Plain (VInt 0)))
         (fresh None).
Proof.
  assert (Hrun : Query (New shop None 1) "page" (Plain (VInt 0)) (fresh None)
                 = (Ret (Some ErrorQueryMissing, Plain (VInt 0)),
                    {| Body := None; MultipartForm := None; trace := [EvQuery] |}))
    by (vm_compute; reflexivity).
  split; [exact Hrun|].
  intros (e & t & st' & Heq & [He | He] & _); rewrite Hrun in Heq;
    injection Heq as <- _ _; discriminate.
Qed.

Lemma path_applied_after_query_witness :
  (item !! 0%nat = Some (ID, VInt 0)
   /\ URL_Query shop !! Tag_Get ID "query" = Some ["3"]
   /\ default "" (PathValues shop !! Tag_Get ID "path") <> ""
   /\ Url (New shop None 1) (Pointer (VStruct item)) start
      = (Ret (None, Pointer (VStruct item7)), looked_up [EvQuery; EvPathValue "id"]))
  /\ exists vq w,
       (exists wq, convert_values ["3"] (Pointer (VInt 0)) = Ret (None, wq)
                   /\ vq = written (VInt 0) wq)
       /\ ConvertValue "7" (Pointer vq) = Ret (None, w)
       /\ field_value 0 (Pointer (VStruct item7)) = Some (written vq w).
Proof.
  assert (H1 : item !! 0%nat = Some (ID, VInt 0)) by reflexivity.
  assert (H2 : URL_Query (r (New shop None 1)) !! Tag_Get ID "query" = Some ["3"])
    by (vm_compute; reflexivity).
  assert (H3 : default "" (PathValues (r (New shop None 1)) !! Tag_Get ID "path") <> "")
    by (vm_compute; discriminate).
  assert (H4 : Url (New shop None 1) (Pointer (VStruct item)) start
               = (Ret (None, Pointer (VStruct item7)),
                  looked_up [EvQuery; EvPathValue "id"]))
    by (vm_compute; reflexivity).
  split; [done|].
  exact (path_applied_after_query (New shop None 1) item 0 ID (VInt 0) ["3"]
           (Pointer (VStruct item7)) start (looked_up [EvQuery; EvPathValue "id"])
           H1 H2 H3 H4).
Defined.

(** C2, as stated, fails when the query value does not convert: with
    [?id=abc] and the path value [7], [Url] returns the error of the query
    conversion, never looks the path value up, and the field keeps its
    value; no run of the path conversion leaves that value. *)
Lemma Url_stops_at_query_error :
  Url (New shop_bad_id None 1) (Pointer (VStruct item)) start
  = (Ret (Some (Foreign "convert: invalid literal"), Pointer (VStruct item)),
     looked_up [EvQuery])
  /\ ~ exists vq w,
        ConvertValue "7" (Pointer vq) = Ret (None, w)
        /\ field_value 0 (Pointer (VStruct item)) = Some (written vq w).
Proof.
  split; [vm_compute; reflexivity|].
  intros (vq & w & Hconv & Hfield). simpl in Hconv, Hfield.
  unfold convert_value in Hconv.
  destruct vq; simpl in Hconv; try discriminate;
    injection Hconv as <-; discriminate.
Qed.

(** C3 fails on the code when more than one name is given:
    [Files("a", "b")] on a form with one file in field [a] and one in field
    [b] returns the part of [a] only, because [createMultiparts] reads
    nothing but [filename[0]]. *)
Lemma Files_second_name_dropped :
  (Files (New upload_request None 1) ["a"; "b"] posted).1
  = Ret ([ {| Key := "a"; PartName := "a.txt";
              Type_ := "text/plain; charset=utf-8"; Suffix := "txt";
              Data := list_byte_of_string "A" |} ], None)
  /\ (Files (New upload_request None 1) [] posted).1
     = Ret ([ {| Key := "a"; PartName := "a.txt";
                 Type_ := "text/plain; charset=utf-8"; Suffix := "txt";
                 Data := list_byte_of_string "A" |};
              {| Key := "b"; PartName := "b.png";
                 Type_ := "text/plain; charset=utf-8"; Suffix := "png";
                 Data := list_byte_of_string "B" |} ], None).
Proof. split; vm_compute; reflexivity. Qed.



Lemma Json_empty_body_witness :
  (len_bytes (New shop None 1) = 0%nat
   /\ (Body (fresh (live "")) = None
       \/ Body (fresh (live "")) = Some {| pending := []; fault := None |}))
  /\ exists st',
       Json (New shop None 1) (Pointer (VInt 5)) (fresh (live ""))
       = (Ret (None, Pointer (VInt 5)), st')
       /\ Body st' = Body (fresh (live "")).
Proof.
  assert (H1 : len_bytes (New shop None 1) = 0%nat) by reflexivity.
  assert (H2 : Body (fresh (live "")) = None
               \/ Body (fresh (live "")) = Some {| pending := []; fault := None |})
    by (right; reflexivity).
  split; [done|].
  exact (Json_empty_body (New shop None 1) (Pointer (VInt 5)) (fresh (live "")) H1 H2).
Defined.

Lemma Text_repeated_witness :
  ((0 < len_bytes (New shop (Some (list_byte_of_string "hi")) 1))%nat
   /\ len_bytes (New shop None 1) = 0%nat
   /\ Body (fresh (live "abc")) = live "abc")
  /\ Text_times (New shop (Some (list_byte_of_string "hi")) 1) 2 (fresh (live "abc"))
     = (Ret [("hi", None); ("hi", None)], fresh (live "abc"))
  /\ (Text_times (New shop None 1) 3 (fresh (live "abc"))).1
     = Ret [("abc", None); ("", None); ("", None)].
Proof.
  assert (H1 : (0 < len_bytes (New shop (Some (list_byte_of_string "hi")) 1))%nat)
    by (vm_compute; lia).
  assert (H2 : len_bytes (New shop None 1) = 0%nat) by reflexivity.
  assert (H3 : Body (fresh (live "abc")) = live "abc") by reflexivity.
  split; [done|].
  destruct (Text_repeated (New shop (Some (list_byte_of_string "hi")) 1)
              (fresh (live "abc")) 2) as [Hbuf _].
  destruct (Text_repeated (New shop None 1) (fresh (live "abc")) 2) as [_ Hlive].
  split; [exact (Hbuf H1)|].
  exact (Hlive H2 _ H3).
Defined.

(** C8, as stated, fails for a payload that was supplied but is empty: the
    parser reads the live stream, so the first [Text] returns the body and
    the second the empty string. *)
Lemma Text_empty_payload_not_idempotent :
  (Text_times (New shop (Some []) 1) 2 (fresh (live "abc"))).1
  = Ret [("abc", None); ("", None)]
  /\ ~ exists s e1 e2,
        (Text_times (New shop (Some []) 1) 2 (fresh (live "abc"))).1
        = Ret [(s, e1); (s, e2)].
Proof.
  assert (Hrun : (Text_times (New shop (Some []) 1) 2 (fresh (live "abc"))).1
                 = Ret [("abc", None); ("", None)]) by (vm_compute; reflexivity).
  split; [exact Hrun|].
  intros (s & e1 & e2 & Heq). rewrite Hrun in Heq.
  injection Heq as <- _ Hs _. discriminate.
Qed.

Lemma multipart_byte_limit_witness :
  (len_bytes (New upload_request None 32) = 0%nat
   /\ IsRequestMultipart upload_request = true
   /\ - 2 ^ 43 <= 32 < 2 ^ 43)
  /\ trace (File (New upload_request None 32) "a" start).2
     = [EvParseMultipartForm (32 * 2 ^ 20)]
  /\ trace (Files (New upload_request None 32) [] start).2
     = [EvParseMultipartForm (32 * 2 ^ 20)].
Proof.
  assert (H1 : len_bytes (New upload_request None 32) = 0%nat) by reflexivity.
  assert (H2 : IsRequestMultipart (r (New upload_request None 32)) = true)
    by reflexivity.
  assert (H3 : - 2 ^ 43 <= limit (New upload_request None 32) < 2 ^ 43)
    by (simpl; lia).
  split; [done|].
  destruct (multipart_byte_limit (New upload_request None 32) "a" [] start H1 H2)
    as [_ Hexact].
  exact (Hexact H3).
Defined.

(** C9, as stated, fails for a limit of [2^43] megabytes and more: the
    shift is done on [int64], and [2^43 << 20] is [-2^63], not [2^63]. *)
Lemma byte_limit_wraps :
  is_int64 (2 ^ 43)
  /\ trace (File (New upload_request None (2 ^ 43)) "a" start).2
     = [EvParseMultipartForm (- 2 ^ 63)]
  /\ - 2 ^ 63 <> 2 ^ 43 * 2 ^ 20.
Proof. split; [|split]; [vm_compute; split; congruence | vm_compute; reflexivity | lia]. Qed.

Lemma empty_payload_is_no_payload_witness :
  (Body (fresh (live "42")) = live "42"
   /\ IsRequestMultipart shop = false
   /\ IsRequestMultipart upload_request = true
   /\ decoded (New upload_request (Some []) 1) posted = Some uploads)
  /\ Text (New shop (Some []) 1) (fresh (live "42"))
     = (Ret ("42", None),
        {| Body := Some {| pending := []; fault := None |}; MultipartForm := None;
           trace := [EvReadBody] |})
  /\ Json (New shop (Some []) 1) (Pointer (VInt 0)) (fresh (live "42"))
     = (Ret (None, Pointer (VInt 42)),
        {| Body := Some {| pending := []; fault := None |}; MultipartForm := None;
           trace := [EvReadBody] |})
  /\ Xml (New shop (Some []) 1) (Pointer (VInt 0)) (fresh (live "42"))
     = (Ret (None, Pointer (VInt 42)),
        {| Body := Some {| pending := []; fault := None |}; MultipartForm := None;
           trace := [EvReadBody] |})
  /\ File (New shop (Some []) 1) "a" start
     = (Ret (Multipart_zero, Some ErrorInvalidMultipart), start)
  /\ File (New upload_request (Some []) 1) "a" posted
     = (Ret (part_a, None), parsed (New upload_request (Some []) 1) uploads posted)
  /\ Files (New upload_request (Some []) 1) [] posted
     = (Ret ([part_a; part_b], None),
        parsed (New upload_request (Some []) 1) uploads posted).
Proof.
  assert (H1 : Body (fresh (live "42"))
               = Some {| pending := list_byte_of_string "42"; fault := None |})
    by reflexivity.
  assert (H2 : IsRequestMultipart shop = false) by reflexivity.
  assert (H3 : IsRequestMultipart upload_request = true) by reflexivity.
  assert (H4 : decoded (New upload_request (Some []) 1) posted = Some uploads)
    by reflexivity.
  split; [done|].
  destruct (empty_payload_is_no_payload shop 1 (Pointer (VInt 0)) "a" []
              (fresh (live "42"))) as (_ & Hread & _).
  destruct (empty_payload_is_no_payload shop 1 Nil "a" [] start)
    as (_ & _ & Hinvalid & _).
  destruct (empty_payload_is_no_payload upload_request 1 Nil "a" [] posted)
    as (_ & _ & _ & Hparse).
  destruct (Hread _ H1) as (HT & HJ & HX).
  destruct (Hparse H3) as (_ & _ & Hform).
  destruct (Hform uploads H4) as [HF HFs].
  split; [rewrite HT; reflexivity|].
  split; [rewrite HJ; reflexivity|].
  split; [rewrite HX; reflexivity|].
  split; [exact (proj1 (Hinvalid H2))|].
  split; [rewrite HF; reflexivity | rewrite HFs; reflexivity].
Defined.

(** ** The further properties at work on the sample requests *)

Lemma Url_keeps_fields_witness :
  Url (New shop_bad_id None 1) (Pointer (VStruct named_item)) start
  = (Ret (Some (Foreign "convert: invalid literal"), Pointer (VStruct named_item)),
     looked_up [EvQuery])
  /\ exists fs', Pointer (VStruct named_item) = Pointer (VStruct fs')
                 /\ fs'.*1 = named_item.*1 /\ length fs' = length named_item.
Proof.
  assert (Hrun : Url (New shop_bad_id None 1) (Pointer (VStruct named_item)) start
                 = (Ret (Some (Foreign "convert: invalid literal"),
                         Pointer (VStruct named_item)), looked_up [EvQuery]))
    by (vm_compute; reflexivity).
  split; [exact Hrun|].
  exact (Url_keeps_fields _ _ _ _ _ _ Hrun).
Defined.

Lemma Url_leaves_unmatched_field_witness :
  (named_item !! 1%nat = Some (Name_info, VString "n/a")
   /\ (URL_Query shop !! Tag_Get Name_info "query" = None
       \/ URL_Query shop !! Tag_Get Name_info "query" = Some [])
   /\ default "" (PathValues shop !! Tag_Get Name_info "path") = ""
   /\ Url (New shop None 1) (Pointer (VStruct named_item)) start
      = (Ret (None, Pointer (VStruct [(ID, VInt 7); (Name_info, VString "n/a")])),
         looked_up [EvQuery; EvPathValue "id"; EvQuery; EvPathValue ""]))
  /\ field_value 1 (Pointer (VStruct [(ID, VInt 7); (Name_info, VString "n/a")]))
     = Some (VString "n/a").
Proof.
  assert (H1 : named_item !! 1%nat = Some (Name_info, VString "n/a")) by reflexivity.
  assert (H2 : URL_Query (r (New shop None 1)) !! Tag_Get Name_info "query" = None
               \/ URL_Query (r (New shop None 1)) !! Tag_Get Name_info "query" = Some [])
    by (left; vm_compute; reflexivity).
  assert (H3 : default "" (PathValues (r (New shop None 1)) !! Tag_Get Name_info "path") = "")
    by (vm_compute; reflexivity).
  assert (H4 : Url (New shop None 1) (Pointer (VStruct named_item)) start
               = (Ret (None, Pointer (VStruct [(ID, VInt 7); (Name_info, VString "n/a")])),
                  looked_up [EvQuery; EvPathValue "id"; EvQuery; EvPathValue ""]))
    by (vm_compute; reflexivity).
  split; [done|].
  exact (Url_leaves_unmatched_field _ _ _ _ _ _ _ _ _ H1 H2 H3 H4).
Defined.

Lemma Url_stops_at_first_error_witness :
  Url (New shop_bad_age None 1) (Pointer (VStruct aged_item)) start
  = (Ret (Some (Foreign "convert: invalid literal"),
          Pointer (VStruct [(ID, VInt 7); (Age_info, VInt 0)])),
     looked_up [EvQuery; EvPathValue "id"; EvQuery])
  /\ exists k info v vk,
       aged_item !! k = Some (info, v)
       /\ field_value k (Pointer (VStruct [(ID, VInt 7); (Age_info, VInt 0)])) = Some vk
       /\ (query_outcome (New shop_bad_age None 1) info v
           = Ret (Some (Foreign "convert: invalid literal"), vk)
           \/ exists vq, query_outcome (New shop_bad_age None 1) info v = Ret (None, vq)
                /\ path_outcome (New shop_bad_age None 1) info vq
                   = Ret (Some (Foreign "convert: invalid literal"), vk))
       /\ (forall j, (k < j)%nat ->
            field_value j (Pointer (VStruct [(ID, VInt 7); (Age_info, VInt 0)]))
            = snd <$> aged_item !! j)
       /\ (forall j info_j v_j, (j < k)%nat -> aged_item !! j = Some (info_j, v_j) ->
            exists vq vp,
              query_outcome (New shop_bad_age None 1) info_j v_j = Ret (None, vq)
              /\ path_outcome (New shop_bad_age None 1) info_j vq = Ret (None, vp)
              /\ field_value j (Pointer (VStruct [(ID, VInt 7); (Age_info, VInt 0)]))
                 = Some vp).
Proof.
  assert (Hrun : Url (New shop_bad_age None 1) (Pointer (VStruct aged_item)) start
                 = (Ret (Some (Foreign "convert: invalid literal"),
                         Pointer (VStruct [(ID, VInt 7); (Age_info, VInt 0)])),
                    looked_up [EvQuery; EvPathValue "id"; EvQuery]))
    by (vm_compute; reflexivity).
  split; [exact Hrun|].
  exact (Url_stops_at_first_error _ _ _ _ _ _ Hrun).
Defined.

Lemma Url_success_needs_exported_fields_witness :
  Url (New shop None 1) (Pointer (VStruct item)) start
  = (Ret (None, Pointer (VStruct item7)), looked_up [EvQuery; EvPathValue "id"])
  /\ Forall (fun f => Exported f.1 = true) item.
Proof.
  assert (Hrun : Url (New shop None 1) (Pointer (VStruct item)) start
                 = (Ret (None, Pointer (VStruct item7)),
                    looked_up [EvQuery; EvPathValue "id"]))
    by (vm_compute; reflexivity).
  split; [exact Hrun|].
  exact (Url_success_needs_exported_fields _ _ _ _ _ Hrun).
Defined.

Lemma Url_lookups_witness :
  Url (New shop None 1) (Pointer (VStruct item)) start
  = (Ret (None, Pointer (VStruct item7)), looked_up [EvQuery; EvPathValue "id"])
  /\ trace (looked_up [EvQuery; EvPathValue "id"])
     = trace start ++ struct_lookups item
  /\ length (trace (looked_up [EvQuery; EvPathValue "id"]))
     = (length (trace start) + 2 * length item)%nat.
Proof.
  assert (Hrun : Url (New shop None 1) (Pointer (VStruct item)) start
                 = (Ret (None, Pointer (VStruct item7)),
                    looked_up [EvQuery; EvPathValue "id"]))
    by (vm_compute; reflexivity).
  split; [exact Hrun|].
  exact (Url_lookups _ _ _ _ _ Hrun).
Defined.

Lemma Url_untagged_field_takes_empty_key_witness :
  (untagged !! 0%nat = Some (N_info, VInt 0)
   /\ Tag N_info !! "query" = None
   /\ URL_Query empty_key !! "" = Some ["5"]
   /\ ["5"] <> []
   /\ default "" (PathValues empty_key !! Tag_Get N_info "path") = ""
   /\ Url (New empty_key None 1) (Pointer (VStruct untagged)) start
      = (Ret (None, Pointer (VStruct [(N_info, VInt 5)])),
         looked_up [EvQuery; EvPathValue ""]))
  /\ exists wq, convert_values ["5"] (Pointer (VInt 0)) = Ret (None, wq)
                /\ field_value 0 (Pointer (VStruct [(N_info, VInt 5)]))
                   = Some (written (VInt 0) wq).
Proof.
  assert (H1 : untagged !! 0%nat = Some (N_info, VInt 0)) by reflexivity.
  assert (H2 : Tag N_info !! "query" = None) by (vm_compute; reflexivity).
  assert (H3 : URL_Query (r (New empty_key None 1)) !! "" = Some ["5"])
    by (vm_compute; reflexivity).
  assert (H4 : ["5"] <> ([] : list string)) by discriminate.
  assert (H5 : default "" (PathValues (r (New empty_key None 1)) !! Tag_Get N_info "path") = "")
    by (vm_compute; reflexivity).
  assert (H6 : Url (New empty_key None 1) (Pointer (VStruct untagged)) start
               = (Ret (None, Pointer (VStruct [(N_info, VInt 5)])),
                  looked_up [EvQuery; EvPathValue ""]))
    by (vm_compute; reflexivity).
  split; [done|].
  exact (Url_untagged_field_takes_empty_key _ _ _ _ _ _ _ _ _ H1 H2 H3 H4 H5 H6).
Defined.

Lemma field_steps_are_single_key_calls_witness :
  (URL_Query shop !! Tag_Get ID "query" = Some ["3"]
   /\ default "" (PathValues shop !! Tag_Get ID "path") <> ""
   /\ URL_Query shop !! Tag_Get Name_info "query" = None
   /\ default "" (PathValues shop !! Tag_Get Name_info "path") = "")
  /\ processQuery (New shop None 1) ID (Pointer (VInt 0)) start
     = Query (New shop None 1) (Tag_Get ID "query") (Pointer (VInt 0)) start
  /\ processPathValue (New shop None 1) ID (Pointer (VInt 0)) start
     = PathValue (New shop None 1) (Tag_Get ID "path") (Pointer (VInt 0)) start
  /\ processQuery (New shop None 1) Name_info (Pointer (VString "n/a")) start
     = (Ret (None, Pointer (VString "n/a")), logged EvQuery start)
  /\ processPathValue (New shop None 1) Name_info (Pointer (VString "n/a")) start
     = (Ret (None, Pointer (VString "n/a")),
        logged (EvPathValue (Tag_Get Name_info "path")) start).
Proof.
  assert (H1 : URL_Query (r (New shop None 1)) !! Tag_Get ID "query" = Some ["3"])
    by (vm_compute; reflexivity).
  assert (H2 : default "" (PathValues (r (New shop None 1)) !! Tag_Get ID "path") <> "")
    by (vm_compute; discriminate).
  assert (H3 : URL_Query (r (New shop None 1)) !! Tag_Get Name_info "query" = None)
    by (vm_compute; reflexivity).
  assert (H4 : default "" (PathValues (r (New shop None 1)) !! Tag_Get Name_info "path") = "")
    by (vm_compute; reflexivity).
  split; [done|].
  destruct (field_steps_are_single_key_calls (New shop None 1) ID (Pointer (VInt 0)) start)
    as (Hq & _ & Hp & _).
  destruct (field_steps_are_single_key_calls (New shop None 1) Name_info
              (Pointer (VString "n/a")) start) as (_ & Hq0 & _ & Hp0).
  split; [exact (Hq _ H1)|]. split; [exact (Hp H2)|].
  split; [exact (proj1 (Hq0 H3))|]. exact (proj1 (Hp0 H4)).
Defined.

Lemma buffered_mode_leaves_request_alone_witness :
  (0 < len_bytes (New upload_request (Some (list_byte_of_string "42")) 1))%nat
  /\ Text (New upload_request (Some (list_byte_of_string "42")) 1) (fresh (live "abc"))
     = (Ret ("42", None), fresh (live "abc"))
  /\ Json (New upload_request (Some (list_byte_of_string "42")) 1) (Pointer (VInt 0))
       (fresh (live "abc"))
     = (Ret (None, Pointer (VInt 42)), fresh (live "abc"))
  /\ File (New upload_request (Some (list_byte_of_string "42")) 1) "a" (fresh (live "abc"))
     = (Ret (Multipart_zero, None), fresh (live "abc"))
  /\ Files (New upload_request (Some (list_byte_of_string "42")) 1) [] (fresh (live "abc"))
     = (Ret ([], None), fresh (live "abc")).
Proof.
  assert (Hlen : (0 < len_bytes (New upload_request (Some (list_byte_of_string "42")) 1))%nat)
    by (vm_compute; lia).
  split; [exact Hlen|].
  destruct (buffered_mode_leaves_request_alone
              (New upload_request (Some (list_byte_of_string "42")) 1)
              (Pointer (VInt 0)) "a" [] (fresh (live "abc")) Hlen)
    as (HT & HJ & _ & _ & _ & HF & HFs).
  split; [exact HT|]. split; [rewrite HJ; reflexivity|].
  split; [exact HF | exact HFs].
Defined.

Lemma stream_decode_errors_witness :
  (len_bytes (New shop None 1) = 0%nat
   /\ Body (fresh (live "")) = live ""
   /\ (xml_Decode {| pending := []; fault := None |} (Pointer (VInt 0))).1
      = Ret (Some io_EOF, None)
   /\ (json_Decode {| pending := []; fault := None |} (Pointer (VInt 0))).1
      = Ret (Some io_EOF, None))
  /\ (Xml (New shop None 1) (Pointer (VInt 0)) (fresh (live ""))).1
     = Ret (Some io_EOF, Pointer (VInt 0))
  /\ (Json (New shop None 1) (Pointer (VInt 0)) (fresh (live ""))).1
     = Ret (None, Pointer (VInt 0)).
Proof.
  assert (H1 : len_bytes (New shop None 1) = 0%nat) by reflexivity.
  assert (H2 : Body (fresh (live "")) = Some {| pending := []; fault := None |})
    by reflexivity.
  assert (H3 : (xml_Decode {| pending := []; fault := None |} (Pointer (VInt 0))).1
               = Ret (Some io_EOF, None)) by reflexivity.
  assert (H4 : (json_Decode {| pending := []; fault := None |} (Pointer (VInt 0))).1
               = Ret (Some io_EOF, None)) by reflexivity.
  split; [done|].
  destruct (stream_decode_errors (New shop None 1) (Pointer (VInt 0))
              {| pending := []; fault := None |} (fresh (live "")) H1 H2)
    as (HX & HJ & _).
  split; [exact (HX _ _ H3) | exact (HJ _ _ H4)].
Defined.

Lemma Json_after_Text_binds_nothing_witness :
  (len_bytes (New shop None 1) = 0%nat
   /\ Body (fresh (live "42")) = live "42"
   /\ fault {| pending := list_byte_of_string "42"; fault := None |} = None)
  /\ (Text (New shop None 1) (fresh (live "42"))).1 = Ret ("42", None)
  /\ (Json (New shop None 1) (Pointer (VInt 0))
        (Text (New shop None 1) (fresh (live "42"))).2).1
     = Ret (None, Pointer (VInt 0)).
Proof.
  assert (H1 : len_bytes (New shop None 1) = 0%nat) by reflexivity.
  assert (H2 : Body (fresh (live "42"))
               = Some {| pending := list_byte_of_string "42"; fault := None |})
    by reflexivity.
  assert (H3 : fault {| pending := list_byte_of_string "42"; fault := None |} = None)
    by reflexivity.
  split; [done|].
  exact (Json_after_Text_binds_nothing (New shop None 1) (Pointer (VInt 0)) _ _ H1 H2 H3).
Defined.

Lemma no_parts_with_an_error_witness :
  Files (New broken_request None 1) [] posted
  = (Ret ([], Some (errors_Join ErrorOpenFile (Foreign "open b.txt: no such file"))),
     parsed (New broken_request None 1) broken_uploads posted)
  /\ (createMultiparts (New broken_request None 1) []
        (parsed (New broken_request None 1) broken_uploads posted)).1
     = Ret ([part_a],
            Some (errors_Join ErrorOpenFile (Foreign "open b.txt: no such file")))
  /\ ([] : list Multipart) = [].
Proof.
  assert (Hrun : Files (New broken_request None 1) [] posted
                 = (Ret ([], Some (errors_Join ErrorOpenFile
                                      (Foreign "open b.txt: no such file"))),
                    parsed (New broken_request None 1) broken_uploads posted))
    by (vm_compute; reflexivity).
  split; [exact Hrun|]. split; [vm_compute; reflexivity|].
  exact (proj1 (no_parts_with_an_error (New broken_request None 1) "a" [] posted)
           _ _ _ Hrun).
Defined.

Lemma Files_success_exact_witness :
  (len_bytes (New upload_request None 1) = 0%nat
   /\ decoded (New upload_request None 1) posted = Some uploads
   /\ Files (New upload_request None 1) ["a"] posted
      = (Ret ([part_a], None), parsed (New upload_request None 1) uploads posted))
  /\ [part_a] = parts_of (filter (fun e => selects "a" e.1 = true) uploads)
  /\ readable (filter (fun e => selects "a" e.1 = true) uploads)
  /\ Forall (fun m => selects "a" (Key m) = true
                      /\ Type_ m = DetectContentType (Data m)
                      /\ Suffix m = GetFilenameSuffix (PartName m)) [part_a].
Proof.
  assert (H1 : len_bytes (New upload_request None 1) = 0%nat) by reflexivity.
  assert (H2 : decoded (New upload_request None 1) posted = Some uploads) by reflexivity.
  assert (H3 : Files (New upload_request None 1) ["a"] posted
               = (Ret ([part_a], None), parsed (New upload_request None 1) uploads posted))
    by (vm_compute; reflexivity).
  split; [done|].
  exact (Files_success_exact (New upload_request None 1) ["a"] uploads [part_a]
           posted _ H1 H2 H3).
Defined.

Lemma Files_error_origin_witness :
  Files (New broken_request None 1) [] posted
  = (Ret ([], Some (errors_Join ErrorOpenFile (Foreign "open b.txt: no such file"))),
     parsed (New broken_request None 1) broken_uploads posted)
  /\ ((IsRequestMultipart broken_request = false
       /\ errors_Join ErrorOpenFile (Foreign "open b.txt: no such file")
          = ErrorInvalidMultipart)
      \/ (MultipartForm posted = None
          /\ ReadForm broken_request (shl64 1 20) (Body posted)
             = inl (errors_Join ErrorOpenFile (Foreign "open b.txt: no such file")))
      \/ exists entries name files file e',
           decoded (New broken_request None 1) posted = Some entries
           /\ (name, files) ∈ entries /\ file ∈ files
           /\ selects "" name = true
           /\ ((Open file = inl e'
                /\ errors_Join ErrorOpenFile (Foreign "open b.txt: no such file")
                   = errors_Join ErrorOpenFile e')
               \/ (exists f, Open file = inr f /\ fault f = Some e'
                   /\ errors_Join ErrorOpenFile (Foreign "open b.txt: no such file")
                      = errors_Join ErrorReadData e'))).
Proof.
  assert (Hrun : Files (New broken_request None 1) [] posted
                 = (Ret ([], Some (errors_Join ErrorOpenFile
                                      (Foreign "open b.txt: no such file"))),
                    parsed (New broken_request None 1) broken_uploads posted))
    by (vm_compute; reflexivity).
  split; [exact Hrun|].
  exact (Files_error_origin (New broken_request None 1) [] _ _ posted _ Hrun).
Defined.

Lemma File_is_first_of_Files_witness :
  ("a" <> ""
   /\ decoded (New upload_request None 1) posted = Some uploads
   /\ decoded (New upload_request None 1) parsed_b_first = Some uploads_b_first
   /\ uploads ≡ₚ uploads_b_first
   /\ NoDup uploads.*1)
  /\ (File (New upload_request None 1) "a" posted).1 = Ret (part_a, None)
  /\ (Files (New upload_request None 1) ["a"] parsed_b_first).1
     = Ret ([part_a], None).
Proof.
  assert (H1 : "a" <> "") by discriminate.
  assert (H2 : decoded (New upload_request None 1) posted = Some uploads)
    by reflexivity.
  assert (H3 : decoded (New upload_request None 1) parsed_b_first
               = Some uploads_b_first) by reflexivity.
  assert (H4 : uploads ≡ₚ uploads_b_first) by apply perm_swap.
  assert (H5 : NoDup uploads.*1)
    by (apply (bool_decide_unpack _); vm_compute; exact I).
  split; [done|].
  pose proof (File_is_first_of_Files (New upload_request None 1) "a" posted
                parsed_b_first uploads uploads_b_first H1 H2 H3 H4 H5) as Hfirst.
  assert (Hfiles : (Files (New upload_request None 1) ["a"] parsed_b_first).1
                   = Ret ([part_a], None)) by (vm_compute; reflexivity).
  split; [|exact Hfiles].
  rewrite Hfirst, Hfiles. reflexivity.
Defined.

Lemma Files_repeatable_witness :
  (len_bytes (New upload_request None 1) = 0%nat
   /\ decoded (New upload_request None 1) posted = Some uploads
   /\ Files (New upload_request None 1) [] posted
      = (Ret ([part_a; part_b], None), parsed (New upload_request None 1) uploads posted)
   /\ MultipartForm parsed_b_first = Some uploads_b_first
   /\ uploads_b_first ≡ₚ uploads)
  /\ exists parts2,
       Files (New upload_request None 1) [] parsed_b_first
       = (Ret (parts2, None),
          {| Body := Body parsed_b_first; MultipartForm := Some uploads_b_first;
             trace := trace parsed_b_first ++ [EvParseMultipartForm (shl64 1 20)] |})
       /\ parts2 ≡ₚ [part_a; part_b]
       /\ (NoDup uploads.*1 -> (0 < String.length "")%nat ->
           parts2 = [part_a; part_b]).
Proof.
  assert (H1 : len_bytes (New upload_request None 1) = 0%nat) by reflexivity.
  assert (H2 : decoded (New upload_request None 1) posted = Some uploads)
    by reflexivity.
  assert (H3 : Files (New upload_request None 1) [] posted
               = (Ret ([part_a; part_b], None),
                  parsed (New upload_request None 1) uploads posted))
    by (vm_compute; reflexivity).
  assert (H4 : MultipartForm parsed_b_first = Some uploads_b_first) by reflexivity.
  assert (H5 : uploads_b_first ≡ₚ uploads) by apply perm_swap.
  split; [done|].
  exact (Files_repeatable (New upload_request None 1) [] [part_a; part_b] uploads
           posted _ H1 H2 H3 parsed_b_first uploads_b_first H4 H5).
Defined.

Lemma byte_limit_exact_iff_witness :
  is_int64 32
  /\ is_int64 (shl64 32 20)
  /\ (shl64 32 20 = 32 * 2 ^ 20 <-> - 2 ^ 43 <= 32 < 2 ^ 43).
Proof.
  assert (H32 : is_int64 32) by (unfold is_int64; lia).
  split; [exact H32|].
  exact (byte_limit_exact_iff 32 H32).
Defined.

Lemma Url_binds_each_field_witness :
  (Url (New shop None 1) (Pointer (VStruct item)) start
   = (Ret (None, Pointer (VStruct item7)), looked_up [EvQuery; EvPathValue "id"])
   /\ item !! 0%nat = Some (ID, VInt 0))
  /\ exists vq vp,
       query_outcome (New shop None 1) ID (VInt 0) = Ret (None, vq)
       /\ path_outcome (New shop None 1) ID vq = Ret (None, vp)
       /\ field_value 0 (Pointer (VStruct item7)) = Some vp.
Proof.
  assert (Hrun : Url (New shop None 1) (Pointer (VStruct item)) start
                 = (Ret (None, Pointer (VStruct item7)),
                    looked_up [EvQuery; EvPathValue "id"]))
    by (vm_compute; reflexivity).
  assert (H0 : item !! 0%nat = Some (ID, VInt 0)) by reflexivity.
  split; [done|].
  exact (Url_binds_each_field _ _ _ _ _ Hrun 0%nat ID (VInt 0) H0).
Defined.

Lemma Earlier_Url_never_fails_witness :
  (Earlier.Url (New shop_bad_id None 1) (Pointer (VStruct item)) start
   = (Ret (None, Pointer (VStruct item7)),
      looked_up [EvQuery; EvQuery; EvPathValue "id"])
   /\ item !! 0%nat = Some (ID, VInt 0))
  /\ None = (None : option error)
  /\ exists vq vp,
       Earlier_query_outcome (New shop_bad_id None 1) ID (VInt 0) = Ret vq
       /\ Earlier_path_outcome (New shop_bad_id None 1) ID vq = Ret vp
       /\ field_value 0 (Pointer (VStruct item7)) = Some vp.
Proof.
  assert (Hrun : Earlier.Url (New shop_bad_id None 1) (Pointer (VStruct item)) start
                 = (Ret (None, Pointer (VStruct item7)),
                    looked_up [EvQuery; EvQuery; EvPathValue "id"]))
    by (vm_compute; reflexivity).
  assert (H0 : item !! 0%nat = Some (ID, VInt 0)) by reflexivity.
  split; [done|].
  destruct (Earlier_Url_never_fails _ _ _ _ _ _ Hrun) as [He Hall].
  split; [exact He|]. exact (Hall 0%nat ID (VInt 0) H0).
Defined.

Lemma Earlier_Url_skips_untagged_field_witness :
  (untagged !! 0%nat = Some (N_info, VInt 0)
   /\ Tag N_info !! "query" = None /\ Tag N_info !! "path" = None
   /\ Earlier.Url (New empty_key None 1) (Pointer (VStruct untagged)) start
      = (Ret (None, Pointer (VStruct untagged)), looked_up [EvPathValue ""]))
  /\ field_value 0 (Pointer (VStruct untagged)) = Some (VInt 0).
Proof.
  assert (H1 : untagged !! 0%nat = Some (N_info, VInt 0)) by reflexivity.
  assert (H2 : Tag N_info !! "query" = None) by (vm_compute; reflexivity).
  assert (H3 : Tag N_info !! "path" = None) by (vm_compute; reflexivity).
  assert (H4 : Earlier.Url (New empty_key None 1) (Pointer (VStruct untagged)) start
               = (Ret (None, Pointer (VStruct untagged)), looked_up [EvPathValue ""]))
    by (vm_compute; reflexivity).
  split; [done|].
  exact (Earlier_Url_skips_untagged_field _ _ _ _ _ _ _ _ _ H1 H2 H3 H4).
Defined.

Lemma Earlier_single_key_stores_unchecked_witness :
  (URL_Query shop_bad_id !! "id" = Some ["abc"]
   /\ URL_Query shop !! "tags" = Some ["a"; "b"]
   /\ default "" (PathValues shop !! "id") <> "")
  /\ Earlier.QueryParam (New shop_bad_id None 1) "id" (Pointer (VInt 0)) start
     = (Ret (None, Pointer (VInt 0)), looked_up [EvQuery; EvQuery])
  /\ Earlier.QueryParam (New shop None 1) "tags" (Pointer (VString "")) start
     = (Ret (None, Pointer (VString "a")), looked_up [EvQuery; EvQuery])
  /\ Earlier.PathValue (New shop None 1) "id" (Pointer (VInt 0)) start
     = (Ret (None, Pointer (VInt 7)), looked_up [EvPathValue "id"]).
Proof.
  assert (H1 : URL_Query (r (New shop_bad_id None 1)) !! "id" = Some ["abc"])
    by (vm_compute; reflexivity).
  assert (H2 : URL_Query (r (New shop None 1)) !! "tags" = Some ["a"; "b"])
    by (vm_compute; reflexivity).
  assert (H3 : default "" (PathValues (r (New shop None 1)) !! "id") <> "")
    by (vm_compute; discriminate).
  split; [done|].
  destruct (Earlier_single_key_stores_unchecked (New shop_bad_id None 1) "id"
              (VInt 0) start) as [Hbad _].
  destruct (Earlier_single_key_stores_unchecked (New shop None 1) "tags"
              (VString "") start) as [Htags _].
  destruct (Earlier_single_key_stores_unchecked (New shop None 1) "id"
              (VInt 0) start) as [_ Hpath].
  split; [rewrite (Hbad _ H1); reflexivity|].
  split; [rewrite (Htags _ H2); reflexivity|].
  rewrite (Hpath H3). vm_compute. reflexivity.
Defined.

